(** * x-to-txt: a shallow embedding of [extract_text.py]

    The program extracts plain text from PDF, DOCX and PPTX files.  This
    development embeds the module function by function:

    - Python strings are [string]; the [str] methods the program calls
      ([lower], [endswith], [startswith], [rfind], [rstrip], slicing and
      [join]) are defined below on them;
    - [os.path] is the POSIX flavour ([posixpath]): separator "/";
    - printing, the file system and exceptions are threaded through a
      state-and-exception monad [M]; [SystemExit] is kept apart from
      [Exception] because [except Exception] does not catch it;
    - the operating system and the three parsing libraries are an
      interface ([Platform]); every theorem holds for every
      implementation of it, and a small concrete one ([Demo]) is used to
      run the program on explicit inputs. *)

From Stdlib Require Import String Ascii List Bool Arith ZArith Lia DecimalString.
Import ListNotations.

Open Scope string_scope.

(* ===================================================================== *)
(** * Python strings *)
(* ===================================================================== *)

Module Str.

(** [c.isupper()] for an ASCII letter. *)
Definition is_upper (c : ascii) : bool :=
  let n := nat_of_ascii c in ((65 <=? n) && (n <=? 90))%nat.

(** One character of [str.lower()], on ASCII.  Bytes outside A-Z are left
    alone.  Python also lowers letters outside ASCII, but the result is
    again outside ASCII, except for U+212A (to "k") and U+0130 (to "i"
    and a combining dot); the program only compares a lowered string with
    ".pdf", ".docx", ".pptx" and their dot-less forms, which hold neither
    letter, so every such comparison comes out as in Python.  Only the
    echo of an invalid format in the error message can differ, for
    text outside ASCII. *)
Definition ascii_lower (c : ascii) : ascii :=
  if is_upper c then ascii_of_nat (nat_of_ascii c + 32) else c.

(** [s.lower()] *)
Fixpoint lower (s : string) : string :=
  match s with
  | EmptyString => EmptyString
  | String c r => String (ascii_lower c) (lower r)
  end.

(** Truthiness of a string: [bool(s)]. *)
Definition truthy (s : string) : bool :=
  match s with EmptyString => false | String _ _ => true end.

(** Truthiness of an [Optional[str]]: [None] and [""] are falsy. *)
Definition truthy_opt (o : option string) : bool :=
  match o with None => false | Some s => truthy s end.

(** [s[n:]] and [s[:n]] for [n >= 0]. *)
Fixpoint drop (n : nat) (s : string) : string :=
  match n, s with
  | O, _ => s
  | S _, EmptyString => EmptyString
  | S k, String _ r => drop k r
  end.

Fixpoint take (n : nat) (s : string) : string :=
  match n, s with
  | O, _ => EmptyString
  | S _, EmptyString => EmptyString
  | S k, String c r => String c (take k r)
  end.

Definition slice_from (s : string) (i : Z) : string := drop (Z.to_nat i) s.
Definition slice_to (s : string) (i : Z) : string := take (Z.to_nat i) s.

(** [s.startswith(p)] *)
Definition startswith (s p : string) : bool := String.prefix p s.

(** [s.endswith(p)] *)
Definition endswith (s p : string) : bool :=
  (String.length p <=? String.length s)%nat
  && String.eqb (drop (String.length s - String.length p) s) p.

(** [s.rfind(c)] for a one-character [c]: the highest index holding [c],
    or [-1]. *)
Fixpoint rfind_from (s : string) (c : ascii) (i last : Z) : Z :=
  match s with
  | EmptyString => last
  | String a r => rfind_from r c (i + 1) (if Ascii.eqb a c then i else last)
  end.

Definition rfind (s : string) (c : ascii) : Z := rfind_from s c 0 (-1).

(** [s.rstrip(c)] for a one-character [c]. *)
Fixpoint rstrip (s : string) (c : ascii) : string :=
  match s with
  | EmptyString => EmptyString
  | String a r =>
      match rstrip r c with
      | EmptyString => if Ascii.eqb a c then EmptyString else String a EmptyString
      | r' => String a r'
      end
  end.

(** [c * n] *)
Fixpoint repeat (c : ascii) (n : nat) : string :=
  match n with O => EmptyString | S k => String c (repeat c k) end.

(** [p in s] for byte strings. *)
Fixpoint contains (s p : string) : bool :=
  String.prefix p s
  || match s with EmptyString => false | String _ r => contains r p end.

(** Iterating over a file opened in binary mode yields its lines, each
    with its terminating newline. *)
Fixpoint lines_from (s : string) (cur : string) : list string :=
  match s with
  | EmptyString => match cur with EmptyString => [] | _ => [cur] end
  | String c r =>
      if Ascii.eqb c "010"%char
      then (cur ++ String c EmptyString) :: lines_from r EmptyString
      else lines_from r (cur ++ String c EmptyString)
  end.

Definition lines (s : string) : list string := lines_from s EmptyString.

(** [sep.join(parts)] *)
Definition join (sep : string) (parts : list string) : string :=
  String.concat sep parts.

(** [str(n)] for a non-negative integer. *)
Definition of_nat (n : nat) : string := NilZero.string_of_uint (Nat.to_uint n).

End Str.

(* ===================================================================== *)
(** * [os.path] on POSIX *)
(* ===================================================================== *)

Module os_path.

Definition sep : ascii := "/"%char.
Definition extsep : ascii := "."%char.

(** [os.sep] as a string. *)
Definition os_sep : string := String sep EmptyString.

(** The loop of [genericpath._splitext] that skips leading dots:
    [n] counts the indices from [filenameIndex] up to [dotIndex]. *)
Fixpoint skip_leading_dots (p rest : string) (n : nat) (dotIndex : Z)
  : string * string :=
  match n with
  | O => (p, EmptyString)
  | S k =>
      match rest with
      | EmptyString => (Str.slice_to p dotIndex, Str.slice_from p dotIndex)
      | String c r =>
          if Ascii.eqb c extsep
          then skip_leading_dots p r k dotIndex
          else (Str.slice_to p dotIndex, Str.slice_from p dotIndex)
      end
  end.

(** [os.path.splitext(p)] *)
Definition splitext (p : string) : string * string :=
  let sepIndex := Str.rfind p sep in
  let dotIndex := Str.rfind p extsep in
  if (sepIndex <? dotIndex)%Z then
    let filenameIndex := (sepIndex + 1)%Z in
    skip_leading_dots p (Str.slice_from p filenameIndex)
      (Z.to_nat (dotIndex - filenameIndex)) dotIndex
  else (p, EmptyString).

(** [os.path.basename(p)] *)
Definition basename (p : string) : string :=
  let i := (Str.rfind p sep + 1)%Z in
  Str.slice_from p i.

(** [os.path.dirname(p)] *)
Definition dirname (p : string) : string :=
  let i := (Str.rfind p sep + 1)%Z in
  let head := Str.slice_to p i in
  if Str.truthy head
     && negb (String.eqb head (Str.repeat sep (String.length head)))
  then Str.rstrip head sep
  else head.

(** [os.path.join(a, b)] *)
Definition join (a b : string) : string :=
  if Str.startswith b os_sep then b
  else if negb (Str.truthy a) || Str.endswith a os_sep then a ++ b
  else a ++ os_sep ++ b.

End os_path.

(* ===================================================================== *)
(** * Exceptions, state and the monad the program runs in *)
(* ===================================================================== *)

(** The two kinds of Python exception the program can meet.
    [Exception msg] stands for any instance of [Exception], with
    [msg = str(e)]; [SystemExit code] is what [sys.exit(code)] raises: it
    derives from [BaseException] only, so [except Exception] lets it
    through. *)
Inductive exn : Type :=
| Exception (msg : string)
| SystemExit (code : Z).

Inductive outcome (A : Type) : Type :=
| Val (a : A)
| Raise (e : exn).

Arguments Val {A} a.
Arguments Raise {A} e.

(** What the libraries hand back. *)
Record Paragraph : Type := mkParagraph { para_text : string }.
Record Document : Type := mkDocument { paragraphs : list Paragraph }.

(** A shape may or may not have a [text] attribute. *)
Record Shape : Type := mkShape { shape_text : option string }.
Record Slide : Type := mkSlide { shapes : list Shape }.
Record Presentation : Type := mkPresentation { slides : list Slide }.

(** The operating system and the parsing libraries.  A library that
    could not be imported is [None]. *)
Class Platform : Type := {
  FS : Type;
  os_path_exists : FS -> string -> bool;
  os_path_isdir : FS -> string -> bool;
  (** [os.makedirs(path, exist_ok=True)] *)
  os_makedirs : string -> FS -> outcome unit * FS;
  (** [with open(path, 'w', encoding='utf-8') as f: f.write(text)] *)
  write_text_file : string -> string -> FS -> outcome unit * FS;
  (** the bytes [open(path, 'rb')] iterates over *)
  read_binary_file : string -> FS -> outcome string;
  (** [pdfminer.high_level.extract_text] *)
  pdfminer_extract_text : option (string -> FS -> outcome string);
  (** [docx.Document] *)
  docx_Document : option (string -> FS -> outcome Document);
  (** [pptx.Presentation] *)
  pptx_Presentation : option (string -> FS -> outcome Presentation)
}.

Record state (W : Type) : Type := mkState {
  fs : W;
  stdout : list string   (* one entry per call of [print] *)
}.

Arguments mkState {W} fs stdout.
Arguments fs {W} s.
Arguments stdout {W} s.

Definition M (W A : Type) : Type := state W -> outcome A * state W.

Definition ret {W A} (a : A) : M W A := fun st => (Val a, st).

Definition bind {W A B} (m : M W A) (k : A -> M W B) : M W B :=
  fun st =>
    match m st with
    | (Val a, st') => k a st'
    | (Raise e, st') => (Raise e, st')
    end.

Declare Scope py_scope.
Delimit Scope py_scope with py.
Notation "x <- m ;; k" := (bind m (fun x => k))
  (at level 61, m at next level, right associativity) : py_scope.
Notation "m ;; k" := (bind m (fun _ => k))
  (at level 61, right associativity) : py_scope.
Open Scope py_scope.

(** [print(line)] *)
Definition print {W} (line : string) : M W unit :=
  fun st => (Val tt, mkState (fs st) (stdout st ++ [line])).

(** [sys.exit(code)] *)
Definition sys_exit {W A} (code : Z) : M W A :=
  fun st => (Raise (SystemExit code), st).

(** [try: body  except Exception as e: handler(str(e))] *)
Definition try_except {W A} (body : M W A) (handler : string -> M W A) : M W A :=
  fun st =>
    match body st with
    | (Raise (Exception msg), st') => handler msg st'
    | r => r
    end.

(** A question asked of the file system. *)
Definition ask {W A} (q : W -> A) : M W A := fun st => (Val (q (fs st)), st).

(** A call that reads the file system and may raise. *)
Definition call {W A} (f : W -> outcome A) : M W A := fun st => (f (fs st), st).

(** A call that changes the file system and may raise. *)
Definition effect {W A} (f : W -> outcome A * W) : M W A :=
  fun st => let (r, w) := f (fs st) in (r, mkState w (stdout st)).

(** [for x in xs: body(x)] *)
Fixpoint for_each {W A} (xs : list A) (body : A -> M W unit) : M W unit :=
  match xs with
  | [] => ret tt
  | x :: rest => body x ;; for_each rest body
  end.

(** The exit status of the process once [main] is over. *)
Definition exit_status {A} (r : outcome A) : Z :=
  match r with
  | Val _ => 0
  | Raise (SystemExit code) => code
  | Raise (Exception _) => 1
  end.

(** The parsed command line: [args] in [main]. *)
Record Namespace : Type := mkNamespace {
  file_paths : list string;
  format : option string;
  output : option string;
  verbose : bool
}.

(* ===================================================================== *)
(** * The program *)
(* ===================================================================== *)

Section Program.

Context {P : Platform}.

(** Lines 8-13: the library function, or the stub that replaces it when
    the import failed. *)
Definition extract_pdf_text (file_path : string) : M FS string :=
  match pdfminer_extract_text with
  | Some extract => call (extract file_path)
  | None =>
      print "Error: pdfminer.six not installed. Run 'pip install pdfminer.six'." ;;
      sys_exit 1
  end.

(** Lines 15-23 *)
Definition open_docx (file_path : string) : M FS Document :=
  match docx_Document with
  | Some open => call (open file_path)
  | None =>
      print "Error: python-docx not installed. Run 'pip install python-docx'." ;;
      sys_exit 1
  end.

(** Lines 25-33 *)
Definition open_pptx (file_path : string) : M FS Presentation :=
  match pptx_Presentation with
  | Some open => call (open file_path)
  | None =>
      print "Error: python-pptx not installed. Run 'pip install python-pptx'." ;;
      sys_exit 1
  end.

(** Lines 43-46: the lines of the raw file that contain [b'/Page ']. *)
Definition count_page_markers (raw : string) : nat :=
  List.length (filter (fun line => Str.contains line "/Page ") (Str.lines raw)).

(** Lines 36-51 *)
Definition extract_text_from_pdf (file_path : string) (verbose : bool) : M FS string :=
  try_except
    (text <- extract_pdf_text file_path ;;
     (if verbose then
        raw <- call (read_binary_file file_path) ;;
        let page_count := count_page_markers raw in
        print ("Processed " ++ Str.of_nat page_count
               ++ " pages from PDF file: " ++ file_path)
      else ret tt) ;;
     ret text)
    (fun e => print ("Error extracting text from PDF: " ++ e) ;; ret "").

(** Lines 54-67 *)
Definition extract_text_from_docx (file_path : string) (verbose : bool) : M FS string :=
  try_except
    (doc <- open_docx file_path ;;
     let paragraphs := map para_text (paragraphs doc) in
     let text := Str.join (String "010" "") paragraphs in
     (if verbose then
        print ("Processed " ++ Str.of_nat (List.length paragraphs)
               ++ " paragraphs from DOCX file: " ++ file_path)
      else ret tt) ;;
     ret text)
    (fun e => print ("Error extracting text from DOCX: " ++ e) ;; ret "").

(** Lines 80-84: the loop over the shapes of one slide. *)
Fixpoint collect_shapes (shapes : list Shape) (slide_text : list string)
  (text_shape_count : nat) : list string * nat :=
  match shapes with
  | [] => (slide_text, text_shape_count)
  | shape :: rest =>
      match shape_text shape with
      | Some t =>
          if Str.truthy t
          then collect_shapes rest (slide_text ++ [t])%list (text_shape_count + 1)
          else collect_shapes rest slide_text text_shape_count
      | None => collect_shapes rest slide_text text_shape_count
      end
  end.

(** Line 87 *)
Definition slide_separator (i : nat) : string :=
  "--- Slide " ++ Str.of_nat i ++ " ---".

(** Lines 79-88: the loop over the slides, [i] counting from 1. *)
Fixpoint collect_slides (slides : list Slide) (i : nat)
  (text_parts : list string) (text_shape_count : nat) : list string * nat :=
  match slides with
  | [] => (text_parts, text_shape_count)
  | slide :: rest =>
      let (slide_text, text_shape_count) :=
        collect_shapes (shapes slide) [] text_shape_count in
      let text_parts :=
        match slide_text with
        | [] => text_parts
        | _ => ((text_parts ++ [slide_separator i]) ++ slide_text)%list
        end in
      collect_slides rest (S i) text_parts text_shape_count
  end.

(** Lines 70-96 *)
Definition extract_text_from_pptx (file_path : string) (verbose : bool) : M FS string :=
  try_except
    (presentation <- open_pptx file_path ;;
     let slide_count := List.length (slides presentation) in
     let (text_parts, text_shape_count) :=
       collect_slides (slides presentation) 1 [] 0 in
     (if verbose then
        print ("Processed " ++ Str.of_nat slide_count ++ " slides and "
               ++ Str.of_nat text_shape_count
               ++ " text elements from PPTX file: " ++ file_path)
      else ret tt) ;;
     ret (Str.join (String "010" "") text_parts))
    (fun e => print ("Error extracting text from PPTX: " ++ e) ;; ret "").

(** Line 103: [specified_format in ["pdf", "docx", "pptx"]] *)
Definition in_formats (s : string) : bool :=
  String.eqb s "pdf" || String.eqb s "docx" || String.eqb s "pptx".

(** Lines 99-120 *)
Definition determine_file_format (file_path : string)
  (specified_format : option string) : M FS (option string) :=
  if Str.truthy_opt specified_format then
    let specified_format :=
      Str.lower (match specified_format with Some s => s | None => "" end) in
    if in_formats specified_format then ret (Some specified_format)
    else
      print ("Error: Invalid format specified: " ++ specified_format) ;;
      ret None
  else
    let extension := snd (os_path.splitext file_path) in
    let extension := Str.lower extension in
    if String.eqb extension ".pdf" then ret (Some "pdf")
    else if String.eqb extension ".docx" then ret (Some "docx")
    else if String.eqb extension ".pptx" then ret (Some "pptx")
    else
      print ("Error: Unsupported file format for " ++ file_path) ;;
      ret None.

(** Lines 123-142 *)
Definition extract_text (file_path : string) (format_type : option string)
  (verbose : bool) : M FS (option string) :=
  exists_ <- ask (fun w => os_path_exists w file_path) ;;
  if negb exists_ then
    print ("Error: File not found: " ++ file_path) ;;
    ret None
  else
    file_format <- determine_file_format file_path format_type ;;
    match file_format with
    | None => ret None
    | Some file_format =>
        if negb (Str.truthy file_format) then ret None
        else if String.eqb file_format "pdf" then
          text <- extract_text_from_pdf file_path verbose ;; ret (Some text)
        else if String.eqb file_format "docx" then
          text <- extract_text_from_docx file_path verbose ;; ret (Some text)
        else if String.eqb file_format "pptx" then
          text <- extract_text_from_pptx file_path verbose ;; ret (Some text)
        else
          print ("Error: Unsupported file format for " ++ file_path) ;;
          ret None
    end.

(** Lines 155-170: which file the text goes to, creating directories on
    the way. *)
Definition choose_output_file (output_path input_path : string) : M FS string :=
  is_dir <- ask (fun w => os_path_isdir w output_path) ;;
  exists_ <- ask (fun w => os_path_exists w output_path) ;;
  if is_dir || (negb exists_ && Str.endswith output_path os_path.os_sep) then
    effect (os_makedirs output_path) ;;
    let base_name := os_path.basename input_path in
    let name_without_ext := fst (os_path.splitext base_name) in
    ret (os_path.join output_path (name_without_ext ++ ".txt"))
  else
    let output_dir := os_path.dirname output_path in
    dir_exists <- ask (fun w => os_path_exists w output_dir) ;;
    (if Str.truthy output_dir && negb dir_exists
     then effect (os_makedirs output_dir)
     else ret tt) ;;
    ret output_path.

(** Lines 172-178 *)
Definition write_output_file (output_file text : string) : M FS unit :=
  try_except
    (effect (write_text_file output_file text) ;;
     print ("Text extracted to: " ++ output_file))
    (fun e => print ("Error writing to output file: " ++ e)).

(** Lines 145-178 *)
Definition handle_output (text : string) (output_path : option string)
  (input_path : string) : M FS unit :=
  if negb (Str.truthy text) then ret tt
  else
    match output_path with
    | None => print text
    | Some output_path =>
        if negb (Str.truthy output_path) then print text
        else
          output_file <- choose_output_file output_path input_path ;;
          write_output_file output_file text
    end.

(** Lines 207-212, as a function of the file system it looks at. *)
Definition output_is_dir (args : Namespace) (w : FS) : bool :=
  let is_single_file := Nat.eqb (List.length (file_paths args)) 1 in
  match output args with
  | None => false
  | Some out =>
      Str.truthy out
      && (os_path_isdir w out
          || Str.endswith out os_path.os_sep
          || negb is_single_file)
  end.

(** Lines 223-232: the output path of one input file. *)
Definition output_path_for (args : Namespace) (output_is_dir : bool)
  (file_path : string) : M FS (option string) :=
  match output args with
  | None => ret None
  | Some out =>
      if negb (Str.truthy out) then ret None
      else if output_is_dir then
        effect (os_makedirs out) ;;
        let base_name := os_path.basename file_path in
        let name_without_ext := fst (os_path.splitext base_name) in
        ret (Some (os_path.join out (name_without_ext ++ ".txt")))
      else ret (Some out)
  end.

(** Lines 216-234: the body of the loop over the input files. *)
Definition process_file (args : Namespace) (output_is_dir : bool)
  (file_path : string) : M FS unit :=
  (if verbose args then print ("Processing file: " ++ file_path) else ret tt) ;;
  text <- extract_text file_path (format args) (verbose args) ;;
  match text with
  | None => ret tt
  | Some text =>
      output_path <- output_path_for args output_is_dir file_path ;;
      handle_output text output_path file_path
  end.

(** Lines 206-234: [main] once the arguments are parsed. *)
Definition run (args : Namespace) : M FS unit :=
  output_is_dir <- ask (output_is_dir args) ;;
  for_each (file_paths args) (process_file args output_is_dir).

(** Lines 188-204: what [parser.parse_args()] makes of the option values
    found on the command line.  [given] holds them as typed: the value
    after [-f]/[--format], the value after [-o]/[--output], whether [-v]
    was there, and the positional arguments.  A value of [-f] outside
    [choices] and an empty list of positionals ([nargs="+"]) end in
    [parser.error], which writes to the standard error stream and leaves
    with status 2. *)
Definition parse_args (given : Namespace) : M FS Namespace :=
  match format given with
  | Some v => if in_formats v then ret tt else sys_exit 2
  | None => ret tt
  end ;;
  match file_paths given with
  | [] => sys_exit 2
  | _ :: _ => ret given
  end.

(** Lines 181-234 *)
Definition main (given : Namespace) : M FS unit :=
  args <- parse_args given ;;
  run args.

End Program.

(* ===================================================================== *)
(** * Notions the properties are stated with *)
(* ===================================================================== *)

(** Two characters that differ at most by ASCII case. *)
Definition caseless_char_eqb (c d : ascii) : bool :=
  Ascii.eqb c d
  || (Str.is_upper c && Ascii.eqb (ascii_of_nat (nat_of_ascii c + 32)) d)
  || (Str.is_upper d && Ascii.eqb (ascii_of_nat (nat_of_ascii d + 32)) c).

(** Case-insensitive equality of two strings. *)
Fixpoint caseless_eqb (s t : string) : bool :=
  match s, t with
  | EmptyString, EmptyString => true
  | String c s', String d t' => caseless_char_eqb c d && caseless_eqb s' t'
  | _, _ => false
  end.

(** A string without upper-case letters. *)
Fixpoint no_upper (s : string) : bool :=
  match s with
  | EmptyString => true
  | String c r => negb (Str.is_upper c) && no_upper r
  end.

(** The texts of the text-bearing shapes of a slide, in shape order. *)
Definition shape_texts (s : Slide) : list string :=
  flat_map
    (fun sh =>
       match shape_text sh with
       | Some t => if Str.truthy t then [t] else []
       | None => []
       end)
    (shapes s).

(** What one slide contributes: nothing without a text-bearing shape,
    else its separator line and one entry per text-bearing shape. *)
Definition slide_lines (i : nat) (s : Slide) : list string :=
  match shape_texts s with
  | [] => []
  | ts => slide_separator i :: ts
  end.

(** What the slides contribute, the first one being number [i]. *)
Fixpoint deck_lines (i : nat) (ss : list Slide) : list string :=
  match ss with
  | [] => []
  | s :: rest => (slide_lines i s ++ deck_lines (S i) rest)%list
  end.

(** The deck [ {shapes: ["Hello"]}, {shapes: []}, {shapes: ["A","B"]} ]. *)
Definition example_deck : Presentation :=
  mkPresentation
    [ mkSlide [mkShape (Some "Hello")];
      mkSlide [];
      mkSlide [mkShape (Some "A"); mkShape (Some "B")] ].

(** The install instruction of each format's library. *)
Definition install_instruction (file_format : string) : string :=
  if String.eqb file_format "pdf"
  then "Error: pdfminer.six not installed. Run 'pip install pdfminer.six'."
  else if String.eqb file_format "docx"
  then "Error: python-docx not installed. Run 'pip install python-docx'."
  else "Error: python-pptx not installed. Run 'pip install python-pptx'.".

(** The library a format needs could not be imported. *)
Definition library_missing {P : Platform} (file_format : string) : Prop :=
  (file_format = "pdf" /\ pdfminer_extract_text = None)
  \/ (file_format = "docx" /\ docx_Document = None)
  \/ (file_format = "pptx" /\ pptx_Presentation = None).

(** The format a path and an optional explicit format select. *)
Definition selects (file_path : string) (specified_format : option string)
  (file_format : string) : Prop :=
  in_formats file_format = true
  /\ match specified_format with
     | Some (String c s) => Str.lower (String c s) = file_format
     | _ => Str.lower (snd (os_path.splitext file_path)) = "." ++ file_format
     end.

(** The state after one more printed line. *)
Definition after_print {W} (st : state W) (line : string) : state W :=
  mkState (fs st) (stdout st ++ [line]).

(** A slide none of whose shapes bears text. *)
Definition textless (s : Slide) : Prop :=
  forall sh, In sh (shapes s) ->
             shape_text sh = None \/ shape_text sh = Some "".

(* ===================================================================== *)
(** * A small concrete platform *)
(* ===================================================================== *)

Module Demo.

(** A file system entry: a directory, or a file that is plain text or a
    well-formed document of one of the three kinds. *)
Inductive node : Type :=
| Dir
| Text (content : string)
| Pdf (text : string)
| Docx (doc : Document)
| Pptx (deck : Presentation).

Definition fsys : Type := list (string * node).

Fixpoint lookup (w : fsys) (path : string) : option node :=
  match w with
  | [] => None
  | (p, n) :: rest => if String.eqb p path then Some n else lookup rest path
  end.

Fixpoint remove (w : fsys) (path : string) : fsys :=
  match w with
  | [] => []
  | (p, n) :: rest =>
      if String.eqb p path then remove rest path else (p, n) :: remove rest path
  end.

Definition exists_ (w : fsys) (path : string) : bool :=
  match lookup w path with Some _ => true | None => false end.

Definition isdir (w : fsys) (path : string) : bool :=
  match lookup w path with Some Dir => true | _ => false end.

Definition makedirs (path : string) (w : fsys) : outcome unit * fsys :=
  match lookup w path with
  | Some Dir => (Val tt, w)
  | Some _ => (Raise (Exception ("[Errno 17] File exists: " ++ path)), w)
  | None => (Val tt, (path, Dir) :: w)
  end.

Definition write (path text : string) (w : fsys) : outcome unit * fsys :=
  match lookup w path with
  | Some Dir => (Raise (Exception ("[Errno 21] Is a directory: " ++ path)), w)
  | _ => (Val tt, (path, Text text) :: remove w path)
  end.

Definition not_found {A} (path : string) : outcome A :=
  Raise (Exception ("[Errno 2] No such file or directory: " ++ path)).

Definition read_binary (path : string) (w : fsys) : outcome string :=
  match lookup w path with
  | Some (Text c) => Val c
  | Some (Pdf t) => Val ("%PDF-1.4 <</Type /Page >> " ++ t)
  | Some (Docx _) | Some (Pptx _) => Val "PK"
  | Some Dir => Raise (Exception ("[Errno 21] Is a directory: " ++ path))
  | None => not_found path
  end.

Definition read_pdf (path : string) (w : fsys) : outcome string :=
  match lookup w path with
  | Some (Pdf t) => Val t
  | Some _ => Raise (Exception "No /Root object! - Is this really a PDF?")
  | None => not_found path
  end.

Definition read_docx (path : string) (w : fsys) : outcome Document :=
  match lookup w path with
  | Some (Docx d) => Val d
  | Some _ => Raise (Exception "File is not a zip file")
  | None => not_found path
  end.

Definition read_pptx (path : string) (w : fsys) : outcome Presentation :=
  match lookup w path with
  | Some (Pptx d) => Val d
  | Some _ => Raise (Exception "File is not a zip file")
  | None => not_found path
  end.

(** What a reader finds in a file that was written as text. *)
Definition content (w : fsys) (path : string) : option string :=
  match lookup w path with Some (Text c) => Some c | _ => None end.

(** All three libraries installed. *)
Definition platform : Platform := {|
  FS := fsys;
  os_path_exists := exists_;
  os_path_isdir := isdir;
  os_makedirs := makedirs;
  write_text_file := write;
  read_binary_file := read_binary;
  pdfminer_extract_text := Some read_pdf;
  docx_Document := Some read_docx;
  pptx_Presentation := Some read_pptx
|}.

(** None of the libraries installed. *)
Definition bare_platform : Platform := {|
  FS := fsys;
  os_path_exists := exists_;
  os_path_isdir := isdir;
  os_makedirs := makedirs;
  write_text_file := write;
  read_binary_file := read_binary;
  pdfminer_extract_text := None;
  docx_Document := None;
  pptx_Presentation := None
|}.

(** A disk with a few documents on it. *)
Definition disk : fsys :=
  [ ("a/doc.pdf", Pdf "first");
    ("b/doc.docx", Docx (mkDocument [mkParagraph "second"]));
    ("deck.pptx", Pptx example_deck);
    ("empty.docx", Docx (mkDocument []));
    ("blank.pptx", Pptx (mkPresentation [mkSlide [mkShape None; mkShape (Some "")]]));
    ("bad.docx", Text "not a document");
    ("bad.pptx", Text "not a document");
    ("report.pdf", Pdf "quarterly");
    ("report.txt", Pdf "quarterly");
    ("out", Dir) ].

Definition boot : state fsys := mkState disk [].

End Demo.

(* ===================================================================== *)
(** * Notions for the properties of the whole program *)
(* ===================================================================== *)

(** A computation that leaves the file system as it found it. *)
Definition reads_only {W A} (m : M W A) : Prop :=
  forall st, fs (snd (m st)) = fs st.

(** A computation out of which no [Exception] comes. *)
Definition contains_exceptions {W A} (m : M W A) : Prop :=
  forall st msg, fst (m st) <> Raise (Exception msg).

(** A computation out of which no [SystemExit] comes. *)
Definition never_exits {W A} (m : M W A) : Prop :=
  forall st code, fst (m st) <> Raise (SystemExit code).

(** An outcome other than [SystemExit]. *)
Definition no_exit {A} (r : outcome A) : Prop :=
  forall code, r <> Raise (SystemExit code).

(** [c in s] for a one-character [c]. *)
Fixpoint has_char (c : ascii) (s : string) : bool :=
  match s with
  | EmptyString => false
  | String a r => Ascii.eqb a c || has_char c r
  end.

(** [s.split(c)] for a one-character [c]. *)
Fixpoint split_from (c : ascii) (s cur : string) : list string :=
  match s with
  | EmptyString => [cur]
  | String a r =>
      if Ascii.eqb a c
      then cur :: split_from c r EmptyString
      else split_from c r (cur ++ String a EmptyString)
  end.

Definition split_on (c : ascii) (s : string) : list string :=
  split_from c s EmptyString.

(** The line the resolver prints when it selects no format. *)
Definition resolver_complaint (file_path : string)
  (specified_format : option string) : string :=
  match specified_format with
  | Some (String c s) =>
      "Error: Invalid format specified: " ++ Str.lower (String c s)
  | _ => "Error: Unsupported file format for " ++ file_path
  end.

(** The library of a format is installed and reads [text] from the
    file: the PDF text as it is, the paragraphs of a DOCX or the slide
    lines of a PPTX joined by newlines. *)
Definition library_yields {P : Platform} (w : FS)
  (file_path file_format text : string) : Prop :=
  (file_format = "pdf"
   /\ exists extract,
       pdfminer_extract_text = Some extract
       /\ extract file_path w = Val text)
  \/ (file_format = "docx"
      /\ exists open doc,
          docx_Document = Some open
          /\ open file_path w = Val doc
          /\ text = Str.join (String "010" "") (map para_text (paragraphs doc)))
  \/ (file_format = "pptx"
      /\ exists open deck,
          pptx_Presentation = Some open
          /\ open file_path w = Val deck
          /\ text = Str.join (String "010" "") (deck_lines 1 (slides deck))).

(** The three libraries are installed and none of their calls, nor the
    raw read of a file, leaves through [SystemExit]. *)
Definition libraries_behave {P : Platform} : Prop :=
  (exists extract,
      pdfminer_extract_text = Some extract
      /\ forall p w, no_exit (extract p w))
  /\ (exists open,
         docx_Document = Some open /\ forall p w, no_exit (open p w))
  /\ (exists open,
         pptx_Presentation = Some open /\ forall p w, no_exit (open p w))
  /\ (forall p w, no_exit (read_binary_file p w)).

(** Writing a file never leaves through [SystemExit]. *)
Definition writes_never_exit {P : Platform} : Prop :=
  forall p t w, no_exit (fst (write_text_file p t w)).

(** [os.makedirs] never leaves through [SystemExit]. *)
Definition makedirs_never_exits {P : Platform} : Prop :=
  forall p w, no_exit (fst (os_makedirs p w)).

(** A computation out of which an [Exception] comes only when
    [os.makedirs] has just raised it. *)
Definition blames_makedirs {P : Platform} {A} (m : M FS A) : Prop :=
  forall st msg st',
    m st = (Raise (Exception msg), st') ->
    exists path w, os_makedirs path w = (Raise (Exception msg), fs st').

(** The slides that have at least one text-bearing shape. *)
Definition slides_with_text (ss : list Slide) : list Slide :=
  filter (fun s => match shape_texts s with [] => false | _ => true end) ss.

(* ===================================================================== *)
(** * Strings: case and extensions *)
(* ===================================================================== *)

Lemma caseless_char_lower (c d : ascii) :
  Str.is_upper d = false ->
  (Str.ascii_lower c = d <-> caseless_char_eqb c d = true).
Proof.
  intros Hd. unfold caseless_char_eqb, Str.ascii_lower. rewrite Hd.
  rewrite andb_false_l, orb_false_r.
  destruct (Str.is_upper c) eqn:Hc; simpl.
  - destruct (Ascii.eqb_spec c d) as [->|Hcd]; [congruence|].
    simpl. now rewrite Ascii.eqb_eq.
  - rewrite orb_false_r. now rewrite Ascii.eqb_eq.
Qed.

Lemma lower_caseless (s t : string) :
  no_upper t = true ->
  (Str.lower s = t <-> caseless_eqb s t = true).
Proof.
  revert t. induction s as [|c s IH]; intros [|d t] Ht; simpl in *;
    try (split; congruence).
  apply andb_true_iff in Ht as [Hd Ht]. apply negb_true_iff in Hd.
  rewrite andb_true_iff, <- (IH t Ht), <- (caseless_char_lower c d Hd).
  split; [intros [= -> ->]; tauto | intros [-> ->]; reflexivity].
Qed.

Lemma caseless_false_lower (s t : string) :
  no_upper t = true -> caseless_eqb s t = false -> String.eqb (Str.lower s) t = false.
Proof.
  intros Ht H. apply String.eqb_neq. intros E.
  apply (lower_caseless s t Ht) in E. congruence.
Qed.

Lemma caseless_true_lower (s t : string) :
  no_upper t = true -> caseless_eqb s t = true -> Str.lower s = t.
Proof. intros Ht H. now apply (lower_caseless s t Ht). Qed.

Lemma in_formats_cases (s : string) :
  in_formats s = true -> s = "pdf" \/ s = "docx" \/ s = "pptx".
Proof.
  unfold in_formats. rewrite !orb_true_iff, !String.eqb_eq. tauto.
Qed.

(* ===================================================================== *)
(** * The format resolver *)
(* ===================================================================== *)

Section Resolver.

Context {P : Platform}.

Lemma explicit_format_lowered (file_path v : string) (st : state FS) :
  v <> "" ->
  determine_file_format file_path (Some v) st
  = if in_formats (Str.lower v)
    then (Val (Some (Str.lower v)), st)
    else (Val None,
          mkState (fs st)
            (stdout st ++ ["Error: Invalid format specified: " ++ Str.lower v])).
Proof.
  intros Hv. destruct v as [|c v]; [congruence|].
  unfold determine_file_format. cbn [Str.truthy_opt Str.truthy].
  destruct (in_formats (Str.lower (String c v))); reflexivity.
Qed.

Lemma selects_resolves (file_path : string) (specified_format : option string)
  (file_format : string) (st : state FS) :
  selects file_path specified_format file_format ->
  determine_file_format file_path specified_format st = (Val (Some file_format), st).
Proof.
  intros [Hin Hsel]. unfold determine_file_format.
  destruct specified_format as [[|c v]|]; cbn [Str.truthy_opt Str.truthy].
  - rewrite Hsel.
    destruct (in_formats_cases _ Hin) as [-> | [-> | ->]]; reflexivity.
  - rewrite Hsel, Hin. reflexivity.
  - rewrite Hsel.
    destruct (in_formats_cases _ Hin) as [-> | [-> | ->]]; reflexivity.
Qed.

(** C3 (as amended).  An explicit format that equals pdf, docx or pptx up
    to case is returned whatever the path is; a non-empty explicit format
    that equals none of them is reported as invalid and [None] is
    returned, again whatever the path is: the right-hand sides do not
    mention [file_path]. *)
Theorem explicit_format_decides (file_path v : string) (st : state FS) :
  (caseless_eqb v "pdf" = true ->
   determine_file_format file_path (Some v) st = (Val (Some "pdf"), st))
  /\ (caseless_eqb v "docx" = true ->
      determine_file_format file_path (Some v) st = (Val (Some "docx"), st))
  /\ (caseless_eqb v "pptx" = true ->
      determine_file_format file_path (Some v) st = (Val (Some "pptx"), st))
  /\ (v <> "" ->
      caseless_eqb v "pdf" = false ->
      caseless_eqb v "docx" = false ->
      caseless_eqb v "pptx" = false ->
      determine_file_format file_path (Some v) st
      = (Val None,
         mkState (fs st)
           (stdout st ++ ["Error: Invalid format specified: " ++ Str.lower v]))).
Proof.
  assert (Hne : forall t, t <> "" -> caseless_eqb v t = true -> v <> "").
  { intros t Ht H ->. destruct t; [congruence | discriminate]. }
  repeat split.
  - intros H. rewrite explicit_format_lowered by (eapply Hne; [|exact H]; discriminate).
    now rewrite (caseless_true_lower v "pdf" eq_refl H).
  - intros H. rewrite explicit_format_lowered by (eapply Hne; [|exact H]; discriminate).
    now rewrite (caseless_true_lower v "docx" eq_refl H).
  - intros H. rewrite explicit_format_lowered by (eapply Hne; [|exact H]; discriminate).
    now rewrite (caseless_true_lower v "pptx" eq_refl H).
  - intros Hv H1 H2 H3. rewrite explicit_format_lowered by assumption.
    unfold in_formats.
    rewrite (caseless_false_lower v "pdf" eq_refl H1),
            (caseless_false_lower v "docx" eq_refl H2),
            (caseless_false_lower v "pptx" eq_refl H3).
    reflexivity.
Qed.

Lemma extension_cases (file_path : string) (st : state FS) :
  let extension := snd (os_path.splitext file_path) in
  let unsupported :=
    (Val None,
     mkState (fs st)
       (stdout st ++ ["Error: Unsupported file format for " ++ file_path])) in
  (caseless_eqb extension ".pdf" = true <->
   determine_file_format file_path None st = (Val (Some "pdf"), st))
  /\ (caseless_eqb extension ".docx" = true <->
      determine_file_format file_path None st = (Val (Some "docx"), st))
  /\ (caseless_eqb extension ".pptx" = true <->
      determine_file_format file_path None st = (Val (Some "pptx"), st))
  /\ (caseless_eqb extension ".pdf" = false ->
      caseless_eqb extension ".docx" = false ->
      caseless_eqb extension ".pptx" = false ->
      determine_file_format file_path None st = unsupported)
  /\ (extension = "" -> determine_file_format file_path None st = unsupported).
Proof.
  intros extension unsupported. subst unsupported.
  unfold determine_file_format. cbn [Str.truthy_opt]. fold extension.
  destruct (caseless_eqb extension ".pdf") eqn:H1.
  { rewrite (caseless_true_lower _ ".pdf" eq_refl H1). cbn.
    assert (H2 : caseless_eqb extension ".docx" = false).
    { apply not_true_is_false. intros H.
      apply (caseless_true_lower _ ".docx" eq_refl) in H.
      apply (caseless_true_lower _ ".pdf" eq_refl) in H1. congruence. }
    assert (H3 : caseless_eqb extension ".pptx" = false).
    { apply not_true_is_false. intros H.
      apply (caseless_true_lower _ ".pptx" eq_refl) in H.
      apply (caseless_true_lower _ ".pdf" eq_refl) in H1. congruence. }
    rewrite H2, H3.
    repeat split; try congruence; try discriminate.
    intros E. rewrite E in H1. discriminate. }
  rewrite (caseless_false_lower _ ".pdf" eq_refl H1).
  destruct (caseless_eqb extension ".docx") eqn:H2.
  { rewrite (caseless_true_lower _ ".docx" eq_refl H2). cbn.
    assert (H3 : caseless_eqb extension ".pptx" = false).
    { apply not_true_is_false. intros H.
      apply (caseless_true_lower _ ".pptx" eq_refl) in H.
      apply (caseless_true_lower _ ".docx" eq_refl) in H2. congruence. }
    rewrite H3.
    repeat split; try congruence; try discriminate.
    intros E. rewrite E in H2. discriminate. }
  rewrite (caseless_false_lower _ ".docx" eq_refl H2).
  destruct (caseless_eqb extension ".pptx") eqn:H3.
  { rewrite (caseless_true_lower _ ".pptx" eq_refl H3). cbn.
    repeat split; try congruence; try discriminate.
    intros E. rewrite E in H3. discriminate. }
  rewrite (caseless_false_lower _ ".pptx" eq_refl H3).
  repeat split; try congruence; try discriminate; reflexivity.
Qed.

Lemma rfind_from_lower_bound (s : string) (c : ascii) (i last : Z) :
  (-1 <= last)%Z -> (0 <= i)%Z -> (-1 <= Str.rfind_from s c i last)%Z.
Proof.
  revert i last. induction s as [|a s IH]; intros i last Hl Hi; cbn.
  - exact Hl.
  - apply IH; [destruct (Ascii.eqb a c)|]; lia.
Qed.

Lemma splitext_without_dot (p : string) :
  Str.rfind p os_path.extsep = (-1)%Z -> os_path.splitext p = (p, "").
Proof.
  intros Hdot. unfold os_path.splitext. rewrite Hdot.
  pose proof (rfind_from_lower_bound p os_path.sep 0 (-1)) as Hsep.
  fold (Str.rfind p os_path.sep) in Hsep.
  destruct (Z.ltb_spec (Str.rfind p os_path.sep) (-1)); [lia | reflexivity].
Qed.

(** C4.  Without an explicit format the resolver returns pdf, docx or
    pptx exactly when the extension of the path, as [os.path.splitext]
    gives it, equals ".pdf", ".docx" or ".pptx" up to case; any other
    extension is reported as unsupported and [None] is returned, and so
    is the empty extension, which a path without a dot has. *)
Theorem extension_decides (file_path : string) (st : state FS) :
  let extension := snd (os_path.splitext file_path) in
  let unsupported :=
    (Val None,
     mkState (fs st)
       (stdout st ++ ["Error: Unsupported file format for " ++ file_path])) in
  (caseless_eqb extension ".pdf" = true <->
   determine_file_format file_path None st = (Val (Some "pdf"), st))
  /\ (caseless_eqb extension ".docx" = true <->
      determine_file_format file_path None st = (Val (Some "docx"), st))
  /\ (caseless_eqb extension ".pptx" = true <->
      determine_file_format file_path None st = (Val (Some "pptx"), st))
  /\ (caseless_eqb extension ".pdf" = false ->
      caseless_eqb extension ".docx" = false ->
      caseless_eqb extension ".pptx" = false ->
      determine_file_format file_path None st = unsupported)
  /\ (extension = "" -> determine_file_format file_path None st = unsupported)
  /\ (Str.rfind file_path "." = (-1)%Z ->
      extension = ""
      /\ determine_file_format file_path None st = unsupported).
Proof.
  intros extension unsupported.
  destruct (extension_cases file_path st) as (H1 & H2 & H3 & H4 & H5).
  split; [exact H1 | split; [exact H2 | split; [exact H3 |]]].
  split; [exact H4 | split; [exact H5 |]].
  intros Hdot.
  assert (E : extension = "").
  { subst extension. now rewrite (splitext_without_dot file_path Hdot). }
  split; [exact E | exact (H5 E)].
Qed.

End Resolver.

(* ===================================================================== *)
(** * The extractors *)
(* ===================================================================== *)

Ltac step_monad :=
  unfold bind, ret, print, call, ask, effect, try_except, sys_exit;
  cbn [fst snd fs stdout].

Section Extractors.

Context {P : Platform}.

Lemma collect_shapes_spec (shs : list Shape) (acc : list string) (n : nat) :
  collect_shapes shs acc n
  = ((acc ++ shape_texts (mkSlide shs))%list,
     n + List.length (shape_texts (mkSlide shs))).
Proof.
  unfold shape_texts. cbn [shapes].
  revert acc n. induction shs as [|sh shs IH]; intros acc n; cbn.
  - now rewrite app_nil_r, Nat.add_0_r.
  - destruct (shape_text sh) as [t|]; [destruct (Str.truthy t)|];
      rewrite IH; cbn; try reflexivity.
    rewrite <- app_assoc. cbn. f_equal. lia.
Qed.

Lemma collect_slides_spec (ss : list Slide) (i : nat) (acc : list string) (n : nat) :
  fst (collect_slides ss i acc n) = (acc ++ deck_lines i ss)%list.
Proof.
  revert i acc n. induction ss as [|s ss IH]; intros i acc n; cbn.
  - now rewrite app_nil_r.
  - destruct s as [shs]. cbn [shapes]. rewrite collect_shapes_spec. cbn [app].
    unfold slide_lines.
    destruct (shape_texts (mkSlide shs)) as [|t ts]; rewrite IH.
    + reflexivity.
    + now rewrite <- !app_assoc.
Qed.

Lemma pptx_opened (open : string -> FS -> outcome Presentation)
  (file_path : string) (verbose : bool) (deck : Presentation) (st : state FS) :
  pptx_Presentation = Some open ->
  open file_path (fs st) = Val deck ->
  fst (extract_text_from_pptx file_path verbose st)
  = Val (Str.join (String "010" "") (deck_lines 1 (slides deck)))
  /\ fs (snd (extract_text_from_pptx file_path verbose st)) = fs st
  /\ (verbose = false -> snd (extract_text_from_pptx file_path verbose st) = st).
Proof.
  intros Hlib Hopen. unfold extract_text_from_pptx, open_pptx.
  rewrite Hlib. step_monad. rewrite Hopen.
  pose proof (collect_slides_spec (slides deck) 1 [] 0) as Hparts.
  destruct (collect_slides (slides deck) 1 [] 0) as [parts count].
  cbn in Hparts. subst parts.
  destruct verbose; cbn; repeat split; discriminate.
Qed.

Lemma docx_opened (open : string -> FS -> outcome Document)
  (file_path : string) (verbose : bool) (doc : Document) (st : state FS) :
  docx_Document = Some open ->
  open file_path (fs st) = Val doc ->
  fst (extract_text_from_docx file_path verbose st)
  = Val (Str.join (String "010" "") (map para_text (paragraphs doc)))
  /\ fs (snd (extract_text_from_docx file_path verbose st)) = fs st
  /\ (verbose = false -> snd (extract_text_from_docx file_path verbose st) = st).
Proof.
  intros Hlib Hopen. unfold extract_text_from_docx, open_docx.
  rewrite Hlib. step_monad. rewrite Hopen.
  destruct verbose; cbn; repeat split; discriminate.
Qed.

(** C2.  Once the deck is open, the PPTX extractor returns the lines
    contributed by the slides joined by newlines, where a slide with at
    least one text-bearing shape contributes its separator, numbered from
    1 by position, and then one entry per text-bearing shape, and a slide
    without any contributes nothing; on the three-slide deck of the
    example the result is exactly the stated string. *)
Theorem pptx_text_by_slide (open : string -> FS -> outcome Presentation)
  (file_path : string) (verbose : bool) (deck : Presentation) (st : state FS) :
  pptx_Presentation = Some open ->
  open file_path (fs st) = Val deck ->
  fst (extract_text_from_pptx file_path verbose st)
  = Val (Str.join (String "010" "") (deck_lines 1 (slides deck)))
  /\ (forall i s,
        shape_texts s = [] -> slide_lines i s = [])
  /\ (forall i s,
        shape_texts s <> [] ->
        slide_lines i s
        = ("--- Slide " ++ Str.of_nat i ++ " ---") :: shape_texts s)
  /\ (deck = example_deck ->
      fst (extract_text_from_pptx file_path verbose st)
      = Val "--- Slide 1 ---
Hello
--- Slide 3 ---
A
B").
Proof.
  intros Hlib Hopen.
  destruct (pptx_opened open file_path verbose deck st Hlib Hopen) as [Hv _].
  repeat split.
  - exact Hv.
  - intros i s Hs. unfold slide_lines. now rewrite Hs.
  - intros i s Hs. unfold slide_lines, slide_separator.
    destruct (shape_texts s); [congruence | reflexivity].
  - intros ->. rewrite Hv. reflexivity.
Qed.

End Extractors.

(* ===================================================================== *)
(** * Failures, empty documents and the output router *)
(* ===================================================================== *)

Section Router.

Context {P : Platform}.

Lemma handle_output_empty (output_path : option string) (input_path : string)
  (st : state FS) :
  handle_output "" output_path input_path st = (Val tt, st).
Proof. reflexivity. Qed.


Lemma pdf_page_scan_raises (extract : string -> FS -> outcome string)
  (file_path text msg : string) (st : state FS) :
  pdfminer_extract_text = Some extract ->
  extract file_path (fs st) = Val text ->
  read_binary_file file_path (fs st) = Raise (Exception msg) ->
  extract_text_from_pdf file_path true st
  = (Val "", after_print st ("Error extracting text from PDF: " ++ msg)).
Proof.
  intros Hlib Htext Hraise. unfold extract_text_from_pdf, extract_pdf_text.
  rewrite Hlib. step_monad. now rewrite Htext, Hraise.
Qed.

Lemma docx_library_raises (open : string -> FS -> outcome Document)
  (file_path : string) (verbose : bool) (msg : string) (st : state FS) :
  docx_Document = Some open ->
  open file_path (fs st) = Raise (Exception msg) ->
  extract_text_from_docx file_path verbose st
  = (Val "", after_print st ("Error extracting text from DOCX: " ++ msg)).
Proof.
  intros Hlib Hraise. unfold extract_text_from_docx, open_docx.
  rewrite Hlib. step_monad. now rewrite Hraise.
Qed.

Lemma pptx_library_raises (open : string -> FS -> outcome Presentation)
  (file_path : string) (verbose : bool) (msg : string) (st : state FS) :
  pptx_Presentation = Some open ->
  open file_path (fs st) = Raise (Exception msg) ->
  extract_text_from_pptx file_path verbose st
  = (Val "", after_print st ("Error extracting text from PPTX: " ++ msg)).
Proof.
  intros Hlib Hraise. unfold extract_text_from_pptx, open_pptx.
  rewrite Hlib. step_monad. now rewrite Hraise.
Qed.



(** C6.  Called with the empty text, the output router returns at once:
    the console and the file system are what they were, whatever the
    output target and the input path are. *)
Theorem empty_text_is_a_no_op (output_path : option string)
  (input_path : string) (st : state FS) :
  handle_output "" output_path input_path st = (Val tt, st).
Proof. apply handle_output_empty. Qed.

Lemma textless_shape_texts (s : Slide) : textless s -> shape_texts s = [].
Proof.
  unfold textless, shape_texts. induction (shapes s) as [|sh shs IH]; intros H.
  - reflexivity.
  - cbn. rewrite IH by (intros x Hx; apply H; now right).
    destruct (H sh (or_introl eq_refl)) as [-> | ->]; reflexivity.
Qed.

Lemma textless_deck_lines (ss : list Slide) (i : nat) :
  Forall textless ss -> deck_lines i ss = [].
Proof.
  intros H. revert i. induction H as [|s ss Hs _ IH]; intros i; cbn.
  - reflexivity.
  - unfold slide_lines. now rewrite (textless_shape_texts s Hs), IH.
Qed.

(** C10 (as amended).  A DOCX without paragraphs and a PPTX without a
    text-bearing shape extract to the empty string and leave the file
    system alone; without [-v] they print nothing at all.  The router
    then does nothing.  A failed extraction returns the same empty string
    and gets the same treatment from the router, but it has printed its
    diagnostic line. *)
Theorem empty_document_like_failure_but_for_diagnostic
  (file_path : string) (verbose : bool) (st : state FS) :
  (forall open doc,
      docx_Document = Some open ->
      open file_path (fs st) = Val doc ->
      paragraphs doc = [] ->
      fst (extract_text_from_docx file_path verbose st) = Val ""
      /\ fs (snd (extract_text_from_docx file_path verbose st)) = fs st
      /\ (verbose = false ->
          extract_text_from_docx file_path verbose st = (Val "", st)))
  /\ (forall open deck,
         pptx_Presentation = Some open ->
         open file_path (fs st) = Val deck ->
         Forall textless (slides deck) ->
         fst (extract_text_from_pptx file_path verbose st) = Val ""
         /\ fs (snd (extract_text_from_pptx file_path verbose st)) = fs st
         /\ (verbose = false ->
             extract_text_from_pptx file_path verbose st = (Val "", st)))
  /\ (forall open msg,
         docx_Document = Some open ->
         open file_path (fs st) = Raise (Exception msg) ->
         extract_text_from_docx file_path verbose st
         = (Val "", after_print st ("Error extracting text from DOCX: " ++ msg)))
  /\ (forall open msg,
         pptx_Presentation = Some open ->
         open file_path (fs st) = Raise (Exception msg) ->
         extract_text_from_pptx file_path verbose st
         = (Val "", after_print st ("Error extracting text from PPTX: " ++ msg)))
  /\ (forall output_path st',
         handle_output "" output_path file_path st' = (Val tt, st')).
Proof.
  split; [|split; [|split; [|split]]].
  - intros open doc Hlib Hopen Hempty.
    destruct (docx_opened open file_path verbose doc st Hlib Hopen)
      as (Hv & Hfs & Hst).
    rewrite Hempty in Hv. cbn in Hv. repeat split; try assumption.
    intros Hq. specialize (Hst Hq).
    destruct (extract_text_from_docx file_path verbose st) as [r s'].
    cbn in *. congruence.
  - intros open deck Hlib Hopen Hempty.
    destruct (pptx_opened open file_path verbose deck st Hlib Hopen)
      as (Hv & Hfs & Hst).
    rewrite (textless_deck_lines _ 1 Hempty) in Hv. cbn in Hv.
    repeat split; try assumption.
    intros Hq. specialize (Hst Hq).
    destruct (extract_text_from_pptx file_path verbose st) as [r s'].
    cbn in *. congruence.
  - intros. now apply docx_library_raises with (open := open).
  - intros. now apply pptx_library_raises with (open := open).
  - intros. apply handle_output_empty.
Qed.

End Router.

(* ===================================================================== *)
(** * The command-line driver *)
(* ===================================================================== *)

Section Driver.

Context {P : Platform}.

Lemma truthy_nonempty (s : string) : s <> "" -> Str.truthy s = true.
Proof. destruct s; [congruence | reflexivity]. Qed.

Lemma truthy_true_nonempty (s : string) : Str.truthy s = true -> s <> "".
Proof. destruct s; [discriminate | discriminate]. Qed.

Lemma output_path_for_directory (args : Namespace) (out file_path : string)
  (st : state FS) :
  output args = Some out ->
  out <> "" ->
  output_path_for args true file_path st
  = (effect (os_makedirs out) ;;
     ret (Some (os_path.join out
                  (fst (os_path.splitext (os_path.basename file_path)) ++ ".txt")))) st.
Proof.
  intros Hout Hne. unfold output_path_for.
  now rewrite Hout, (truthy_nonempty out Hne).
Qed.

(** C5 (as amended).  [run] looks at the file system once, before the
    loop, to decide whether the output is directory-shaped, and every
    iteration gets that one answer.  The answer is yes exactly when an
    output path was given, is not empty, and either there are several
    input paths, or the output path is a directory, or it ends with the
    path separator.  With the answer yes, the output path of an input is
    the output directory joined with the input's base name, stripped of
    its extension, plus ".txt" (after the directory has been made). *)
Theorem directory_shaped_decision (args : Namespace) (st : state FS) :
  file_paths args <> [] ->
  run args st
  = for_each (file_paths args) (process_file args (output_is_dir args (fs st))) st
  /\ (output_is_dir args (fs st) = true <->
      exists out,
        output args = Some out /\ out <> ""
        /\ (1 < List.length (file_paths args)
            \/ os_path_isdir (fs st) out = true
            \/ Str.endswith out os_path.os_sep = true))
  /\ (output_is_dir args (fs st) = true ->
      exists out,
        output args = Some out
        /\ forall file_path st1,
            output_path_for args (output_is_dir args (fs st)) file_path st1
            = (effect (os_makedirs out) ;;
               ret (Some (os_path.join out
                            (fst (os_path.splitext (os_path.basename file_path))
                             ++ ".txt")))) st1).
Proof.
  intros Hfiles.
  assert (Hlen : Nat.eqb (List.length (file_paths args)) 1 = false
                 <-> 1 < List.length (file_paths args)).
  { rewrite Nat.eqb_neq. destruct (file_paths args); [congruence|]. cbn. lia. }
  assert (Hiff : output_is_dir args (fs st) = true <->
      exists out,
        output args = Some out /\ out <> ""
        /\ (1 < List.length (file_paths args)
            \/ os_path_isdir (fs st) out = true
            \/ Str.endswith out os_path.os_sep = true)).
  { unfold output_is_dir. destruct (output args) as [out|].
    - rewrite andb_true_iff, !orb_true_iff, negb_true_iff, Hlen. split.
      + intros [Ht Hor]. exists out. split; [reflexivity|].
        split; [now apply truthy_true_nonempty | tauto].
      + intros (out' & [= <-] & Hne & Hor).
        split; [now apply truthy_nonempty | tauto].
    - split; [discriminate | intros (out' & [=] & _)]. }
  split; [reflexivity | split; [exact Hiff|]].
  intros Hdir. rewrite Hdir.
  destruct (proj1 Hiff Hdir) as (out & Hout & Hne & _).
  exists out. split; [exact Hout|].
  intros file_path st1. now apply output_path_for_directory.
Qed.

Lemma parse_args_rejects (given : Namespace) (v : string) (st : state FS) :
  format given = Some v ->
  in_formats v = false ->
  parse_args given st = (Raise (SystemExit 2), st).
Proof.
  intros Hf Hv. unfold parse_args. rewrite Hf, Hv. reflexivity.
Qed.

Lemma parse_args_accepts (given : Namespace) (st : state FS) :
  file_paths given <> [] ->
  match format given with Some v => in_formats v = true | None => True end ->
  parse_args given st = (Val given, st).
Proof.
  intros Hfiles Hf. unfold parse_args.
  destruct (file_paths given); [congruence|].
  destruct (format given) as [v|]; [rewrite Hf|]; reflexivity.
Qed.

(** C8 (as amended).  The value of [-f]/[--format] is accepted only as
    it stands in the list of choices: exactly "pdf", "docx" or "pptx".
    Such a value passes the parser and the resolver returns it for every
    path.  Any other value, another casing of a format included, stops
    the program in the parser with status 2 before any file is looked
    at. *)
Theorem format_flag_is_exact (given : Namespace) (v : string) (st : state FS) :
  format given = Some v ->
  (in_formats v = true <-> v = "pdf" \/ v = "docx" \/ v = "pptx")
  /\ (in_formats v = false ->
      main given st = (Raise (SystemExit 2), st)
      /\ exit_status (fst (main given st)) = 2%Z)
  /\ (in_formats v = true ->
      file_paths given <> [] ->
      parse_args given st = (Val given, st)
      /\ forall file_path st',
          determine_file_format file_path (format given) st' = (Val (Some v), st')).
Proof.
  intros Hf. split; [|split].
  - split; [apply in_formats_cases|].
    intros [-> | [-> | ->]]; reflexivity.
  - intros Hv. unfold main, bind.
    rewrite (parse_args_rejects given v st Hf Hv). split; reflexivity.
  - intros Hv Hfiles. split.
    + apply parse_args_accepts; [assumption | now rewrite Hf].
    + intros file_path st'. rewrite Hf.
      destruct (in_formats_cases v Hv) as [-> | [-> | ->]]; reflexivity.
Qed.

End Driver.

(* ===================================================================== *)
(** * A missing library *)
(* ===================================================================== *)

Section MissingLibrary.

Context {P : Platform}.

Lemma pdf_library_missing (file_path : string) (verbose : bool) (st : state FS) :
  pdfminer_extract_text = None ->
  extract_text_from_pdf file_path verbose st
  = (Raise (SystemExit 1), after_print st (install_instruction "pdf")).
Proof.
  intros Hlib. unfold extract_text_from_pdf, extract_pdf_text.
  now rewrite Hlib.
Qed.

Lemma docx_library_missing (file_path : string) (verbose : bool) (st : state FS) :
  docx_Document = None ->
  extract_text_from_docx file_path verbose st
  = (Raise (SystemExit 1), after_print st (install_instruction "docx")).
Proof.
  intros Hlib. unfold extract_text_from_docx, open_docx.
  now rewrite Hlib.
Qed.

Lemma pptx_library_missing (file_path : string) (verbose : bool) (st : state FS) :
  pptx_Presentation = None ->
  extract_text_from_pptx file_path verbose st
  = (Raise (SystemExit 1), after_print st (install_instruction "pptx")).
Proof.
  intros Hlib. unfold extract_text_from_pptx, open_pptx.
  now rewrite Hlib.
Qed.

Lemma extract_text_library_missing (file_path : string)
  (format_type : option string) (verbose : bool) (file_format : string)
  (st : state FS) :
  os_path_exists (fs st) file_path = true ->
  selects file_path format_type file_format ->
  library_missing file_format ->
  extract_text file_path format_type verbose st
  = (Raise (SystemExit 1), after_print st (install_instruction file_format)).
Proof.
  intros Hex Hsel Hmiss. unfold extract_text.
  unfold bind at 1. unfold ask. cbn [fs]. rewrite Hex. cbn [negb].
  unfold bind at 1. rewrite (selects_resolves _ _ _ st Hsel).
  destruct Hmiss as [[-> Hlib] | [[-> Hlib] | [-> Hlib]]]; cbn;
    unfold bind.
  - now rewrite (pdf_library_missing file_path verbose st Hlib).
  - now rewrite (docx_library_missing file_path verbose st Hlib).
  - now rewrite (pptx_library_missing file_path verbose st Hlib).
Qed.

Lemma for_each_stops_at_raise {A} (body : A -> M FS unit)
  (pre rest : list A) (x : A) (e : exn) (st0 st st' : state FS) :
  for_each pre body st0 = (Val tt, st) ->
  body x st = (Raise e, st') ->
  for_each (pre ++ x :: rest) body st0 = (Raise e, st').
Proof.
  revert st0. induction pre as [|y pre IH]; intros st0 Hpre Hx; cbn in *.
  - injection Hpre as <-. unfold bind. now rewrite Hx.
  - unfold bind in *. destruct (body y st0) as [[[]|e0] s1].
    + now apply IH.
    + discriminate.
Qed.

(** C7.  With the library of a format missing, its extractor prints the
    install instruction and raises [SystemExit 1], which its own
    [except Exception] does not turn into the empty text.  In [main] the
    first input that reaches such an extractor ends the process there,
    with status 1: the inputs after it are not processed. *)
Theorem missing_library_is_fatal (given : Namespace) (pre rest : list string)
  (file_path file_format : string) (st0 st : state FS) :
  parse_args given st0 = (Val given, st0) ->
  file_paths given = (pre ++ file_path :: rest)%list ->
  for_each pre (process_file given (output_is_dir given (fs st0))) st0
  = (Val tt, st) ->
  os_path_exists (fs st) file_path = true ->
  selects file_path (format given) file_format ->
  library_missing file_format ->
  (forall path v s,
      pdfminer_extract_text = None ->
      extract_text_from_pdf path v s
      = (Raise (SystemExit 1),
         after_print s
           "Error: pdfminer.six not installed. Run 'pip install pdfminer.six'."))
  /\ (forall path v s,
         docx_Document = None ->
         extract_text_from_docx path v s
         = (Raise (SystemExit 1),
            after_print s
              "Error: python-docx not installed. Run 'pip install python-docx'."))
  /\ (forall path v s,
         pptx_Presentation = None ->
         extract_text_from_pptx path v s
         = (Raise (SystemExit 1),
            after_print s
              "Error: python-pptx not installed. Run 'pip install python-pptx'."))
  /\ main given st0
     = (Raise (SystemExit 1),
        after_print
          (if verbose given
           then after_print st ("Processing file: " ++ file_path) else st)
          (install_instruction file_format))
  /\ exit_status (fst (main given st0)) = 1%Z.
Proof.
  intros Hparse Hfiles Hpre Hex Hsel Hmiss.
  assert (Hmain : main given st0
     = (Raise (SystemExit 1),
        after_print
          (if verbose given
           then after_print st ("Processing file: " ++ file_path) else st)
          (install_instruction file_format))).
  { unfold main. unfold bind at 1. rewrite Hparse.
    unfold run. unfold bind at 1. unfold ask. rewrite Hfiles.
    apply for_each_stops_at_raise with (st := st); [exact Hpre|].
    unfold process_file. unfold bind at 1.
    destruct (verbose given) eqn:Hv.
    - unfold print at 1. unfold bind at 1.
      rewrite (extract_text_library_missing file_path (format given) true
                 file_format (mkState (fs st) (stdout st ++ ["Processing file: " ++ file_path]))
                 Hex Hsel Hmiss).
      reflexivity.
    - unfold ret at 1. unfold bind at 1.
      now rewrite (extract_text_library_missing file_path (format given) false
                     file_format st Hex Hsel Hmiss). }
  repeat split.
  - intros. now apply pdf_library_missing.
  - intros. now apply docx_library_missing.
  - intros. now apply pptx_library_missing.
  - exact Hmain.
  - now rewrite Hmain.
Qed.

End MissingLibrary.

(* ===================================================================== *)
(** * Inputs with the same stem *)
(* ===================================================================== *)

Section SameStem.

Context {P : Platform}.

Lemma append_nonempty (a b : string) : b <> "" -> a ++ b <> "".
Proof.
  intros Hb. destruct a; cbn; [assumption | discriminate].
Qed.

Lemma join_nonempty (a b : string) : b <> "" -> os_path.join a b <> "".
Proof.
  intros Hb. unfold os_path.join.
  destruct (Str.startswith b os_path.os_sep); [assumption|].
  destruct (negb (Str.truthy a) || Str.endswith a os_path.os_sep).
  - now apply append_nonempty.
  - apply append_nonempty. discriminate.
Qed.

Lemma choose_output_file_stdout (output_path input_path : string) (st : state FS) :
  stdout (snd (choose_output_file output_path input_path st)) = stdout st.
Proof.
  unfold choose_output_file. step_monad.
  destruct (os_path_isdir (fs st) output_path
            || negb (os_path_exists (fs st) output_path)
               && Str.endswith output_path os_path.os_sep).
  - destruct (os_makedirs output_path (fs st)) as [[[]|e] w]; reflexivity.
  - destruct (Str.truthy (os_path.dirname output_path)
              && negb (os_path_exists (fs st) (os_path.dirname output_path))).
    + destruct (os_makedirs (os_path.dirname output_path) (fs st))
        as [[[]|e] w]; reflexivity.
    + reflexivity.
Qed.

Lemma write_output_file_confirmed (content : FS -> string -> option string)
  (output_file text f : string) (st st' : state FS) :
  (forall path t w w',
      write_text_file path t w = (Val tt, w') -> content w' path = Some t) ->
  write_output_file output_file text st = (Val tt, st') ->
  stdout st' = stdout (after_print st ("Text extracted to: " ++ f)) ->
  f = output_file /\ content (fs st') f = Some text.
Proof.
  intros Hlaw Hrun Hout. unfold write_output_file in Hrun.
  unfold try_except, bind, effect, print in Hrun.
  destruct (write_text_file output_file text (fs st)) as [[[]|[msg|code]] w] eqn:Hw;
    cbn [fs stdout] in Hrun.
  - injection Hrun as <-. cbn [fs stdout] in *.
    apply app_inv_head in Hout. cbn in Hout.
    injection Hout as <-. split; [reflexivity|]. now apply (Hlaw _ _ _ _ Hw).
  - injection Hrun as <-. cbn [fs stdout] in *.
    apply app_inv_head in Hout. cbn in Hout. discriminate.
  - discriminate.
Qed.

(** C9 (as amended).  Under a directory-shaped output, two inputs whose
    base names without extension are equal are given one and the same
    output path by the loop body, and in any state the router picks the
    same file for both.  When the later input's text is not empty and the
    router returns having confirmed its write, that file holds exactly
    this text: whatever the earlier input had written there is gone.
    When the later input's text is empty, the router does nothing and the
    file stays as the earlier input left it. *)
Theorem same_stem_same_output_file (args : Namespace) (out p1 p2 : string)
  (content : FS -> string -> option string) :
  output args = Some out ->
  out <> "" ->
  fst (os_path.splitext (os_path.basename p1))
  = fst (os_path.splitext (os_path.basename p2)) ->
  (forall path t w w',
      write_text_file path t w = (Val tt, w') -> content w' path = Some t) ->
  let target :=
    os_path.join out (fst (os_path.splitext (os_path.basename p1)) ++ ".txt") in
  (forall st,
      output_path_for args true p1 st
      = (effect (os_makedirs out) ;; ret (Some target)) st
      /\ output_path_for args true p2 st
         = (effect (os_makedirs out) ;; ret (Some target)) st)
  /\ (forall st,
         choose_output_file target p1 st = choose_output_file target p2 st)
  /\ (forall text st st' f,
         text <> "" ->
         handle_output text (Some target) p2 st = (Val tt, st') ->
         stdout st' = stdout (after_print st ("Text extracted to: " ++ f)) ->
         fst (choose_output_file target p1 st) = Val f
         /\ content (fs st') f = Some text)
  /\ (forall st,
         handle_output "" (Some target) p2 st = (Val tt, st)).
Proof.
  intros Hout Hne Hstem Hlaw target.
  assert (Hchoose : forall st,
             choose_output_file target p1 st = choose_output_file target p2 st).
  { intros st. unfold choose_output_file. now rewrite Hstem. }
  split; [|split; [|split; [|intros st; reflexivity]]].
  - intros st. split.
    + now apply output_path_for_directory.
    + subst target. rewrite Hstem. now apply output_path_for_directory.
  - exact Hchoose.
  - intros text st st' f Htext Hrun Hprinted.
    unfold handle_output in Hrun.
    rewrite (truthy_nonempty text Htext) in Hrun. cbn [negb] in Hrun.
    assert (Htarget : target <> "").
    { apply join_nonempty. apply append_nonempty. discriminate. }
    rewrite (truthy_nonempty target Htarget) in Hrun. cbn [negb] in Hrun.
    unfold bind in Hrun. rewrite Hchoose.
    pose proof (choose_output_file_stdout target p2 st) as Hsame.
    destruct (choose_output_file target p2 st) as [[output_file|e] st1];
      [|discriminate].
    cbn [snd fst] in *.
    unfold after_print in Hprinted. cbn [stdout] in Hprinted.
    rewrite <- Hsame in Hprinted.
    destruct (write_output_file_confirmed content output_file text f st1 st'
                Hlaw Hrun Hprinted) as [-> Hcontent].
    split; [reflexivity | exact Hcontent].
Qed.

End SameStem.

(* ===================================================================== *)
(** * Runs on the concrete platform *)
(* ===================================================================== *)

Lemma demo_write_then_content (path t : string) (w w' : Demo.fsys) :
  Demo.write path t w = (Val tt, w') -> Demo.content w' path = Some t.
Proof.
  unfold Demo.write. intros H.
  destruct (Demo.lookup w path) as [[| | | |]|]; try discriminate;
    injection H as <-; unfold Demo.content; cbn;
    now rewrite String.eqb_refl.
Qed.



(** The deck of the example, read from "deck.pptx". *)
Lemma pptx_text_by_slide_witness :
  pptx_Presentation (Platform := Demo.platform) = Some Demo.read_pptx
  /\ Demo.read_pptx "deck.pptx" Demo.disk = Val example_deck
  /\ fst (extract_text_from_pptx (P := Demo.platform) "deck.pptx" false Demo.boot)
     = Val "--- Slide 1 ---
Hello
--- Slide 3 ---
A
B".
Proof.
  split; [reflexivity | split; [reflexivity|]].
  apply (proj2 (proj2 (proj2
           (pptx_text_by_slide (P := Demo.platform) Demo.read_pptx
              "deck.pptx" false example_deck Demo.boot eq_refl eq_refl)))).
  reflexivity.
Defined.

(** "report.txt" with the explicit format "PDF", and with "zip". *)
Lemma explicit_format_decides_witness :
  caseless_eqb "PDF" "pdf" = true
  /\ determine_file_format (P := Demo.platform) "report.txt" (Some "PDF") Demo.boot
     = (Val (Some "pdf"), Demo.boot)
  /\ determine_file_format (P := Demo.platform) "report.pdf" (Some "zip") Demo.boot
     = (Val None, after_print Demo.boot "Error: Invalid format specified: zip").
Proof.
  split; [reflexivity | split].
  - apply (proj1 (explicit_format_decides (P := Demo.platform)
                    "report.txt" "PDF" Demo.boot)).
    reflexivity.
  - apply (proj2 (proj2 (proj2 (explicit_format_decides (P := Demo.platform)
                                  "report.pdf" "zip" Demo.boot)))).
    + discriminate.
    + reflexivity.
    + reflexivity.
    + reflexivity.
Defined.

(** C3 as stated fails: the explicit format [""] is none of the three
    formats, yet nothing is reported as invalid; the extension is
    consulted and decides. *)
Lemma empty_explicit_format_consults_extension :
  caseless_eqb "" "pdf" = false
  /\ caseless_eqb "" "docx" = false
  /\ caseless_eqb "" "pptx" = false
  /\ determine_file_format (P := Demo.platform) "report.pdf" (Some "") Demo.boot
     = (Val (Some "pdf"), Demo.boot)
  /\ determine_file_format (P := Demo.platform) "report.txt" (Some "") Demo.boot
     = (Val None,
        after_print Demo.boot "Error: Unsupported file format for report.txt")
  /\ determine_file_format (P := Demo.platform) "report.pdf" (Some "") Demo.boot
     <> (Val None, after_print Demo.boot "Error: Invalid format specified: ").
Proof. repeat split. discriminate. Qed.

(** An upper-case extension below a dotted directory, and a path without
    any dot. *)
Lemma extension_decides_witness :
  caseless_eqb (snd (os_path.splitext "a/b.c/report.PDF")) ".pdf" = true
  /\ determine_file_format (P := Demo.platform) "a/b.c/report.PDF" None Demo.boot
     = (Val (Some "pdf"), Demo.boot)
  /\ Str.rfind "README" "." = (-1)%Z
  /\ determine_file_format (P := Demo.platform) "README" None Demo.boot
     = (Val None, after_print Demo.boot "Error: Unsupported file format for README").
Proof.
  split; [reflexivity | split; [|split; [reflexivity|]]].
  - apply (proj1 (proj1 (extension_decides (P := Demo.platform)
                           "a/b.c/report.PDF" Demo.boot))).
    reflexivity.
  - apply (proj2 (proj2 (proj2 (proj2 (proj2
             (extension_decides (P := Demo.platform) "README" Demo.boot)))))).
    reflexivity.
Defined.

(** Two inputs and the output "new/", which does not exist yet. *)
Lemma directory_shaped_decision_witness :
  let args := mkNamespace ["a/doc.pdf"; "b/doc.docx"] None (Some "new/") false in
  file_paths args <> []
  /\ (output_is_dir (P := Demo.platform) args Demo.disk = true <->
      exists out,
        output args = Some out /\ out <> ""
        /\ (1 < List.length (file_paths args)
            \/ Demo.isdir Demo.disk out = true
            \/ Str.endswith out os_path.os_sep = true)).
Proof.
  cbv zeta. split; [discriminate|].
  apply (proj1 (proj2
           (directory_shaped_decision (P := Demo.platform)
              (mkNamespace ["a/doc.pdf"; "b/doc.docx"] None (Some "new/") false)
              Demo.boot ltac:(discriminate)))).
Defined.

(** C5 as stated fails: two inputs and no output path.  More than one
    input path was supplied, yet the decision is "not directory-shaped",
    and both texts go to the console. *)
Lemma several_inputs_without_output :
  let args := mkNamespace ["a/doc.pdf"; "b/doc.docx"] None None false in
  1 < List.length (file_paths args)
  /\ output_is_dir (P := Demo.platform) args Demo.disk = false
  /\ run (P := Demo.platform) args Demo.boot
     = (Val tt, mkState Demo.disk ["first"; "second"])
  /\ ~ (output_is_dir (P := Demo.platform) args Demo.disk = true <->
        (1 < List.length (file_paths args)
         \/ exists out,
             output args = Some out
             /\ (Demo.isdir Demo.disk out = true
                 \/ Str.endswith out os_path.os_sep = true))).
Proof.
  cbv zeta. split; [cbn; lia | split; [reflexivity | split; [reflexivity|]]].
  intros [_ H]. cbn in H.
  assert (E : false = true) by (apply H; left; lia).
  discriminate.
Qed.

(** Nothing installed: the second input is a PDF and ends the run; the
    third input is never looked at. *)
Lemma missing_library_is_fatal_witness :
  let given :=
    mkNamespace ["report.txt"; "report.pdf"; "empty.docx"] None None true in
  pdfminer_extract_text (Platform := Demo.bare_platform) = None
  /\ main (P := Demo.bare_platform) given Demo.boot
     = (Raise (SystemExit 1),
        mkState Demo.disk
          [ "Processing file: report.txt";
            "Error: Unsupported file format for report.txt";
            "Processing file: report.pdf";
            "Error: pdfminer.six not installed. Run 'pip install pdfminer.six'." ]).
Proof.
  cbv zeta. split; [reflexivity|].
  apply (proj1 (proj2 (proj2 (proj2
    (missing_library_is_fatal (P := Demo.bare_platform)
       (mkNamespace ["report.txt"; "report.pdf"; "empty.docx"] None None true)
       ["report.txt"] ["empty.docx"] "report.pdf" "pdf" Demo.boot
       (mkState Demo.disk
          [ "Processing file: report.txt";
            "Error: Unsupported file format for report.txt" ])
       eq_refl eq_refl eq_refl eq_refl (conj eq_refl eq_refl)
       (or_introl (conj eq_refl eq_refl))))))).
Defined.

(** The lower-case value is accepted and resolves. *)
Lemma format_flag_is_exact_witness :
  let given := mkNamespace ["report.txt"] (Some "pdf") None false in
  format given = Some "pdf"
  /\ parse_args (P := Demo.platform) given Demo.boot = (Val given, Demo.boot)
  /\ determine_file_format (P := Demo.platform) "report.txt" (format given) Demo.boot
     = (Val (Some "pdf"), Demo.boot).
Proof.
  cbv zeta. split; [reflexivity|].
  destruct (proj2 (proj2
    (format_flag_is_exact (P := Demo.platform)
       (mkNamespace ["report.txt"] (Some "pdf") None false) "pdf" Demo.boot
       eq_refl)) eq_refl ltac:(discriminate)) as [Hparse Hresolve].
  split; [exact Hparse | apply Hresolve].
Defined.

(** C8 as stated fails: [-f PDF] is a casing of pdf, the resolver alone
    would take it, but the program stops in the parser with status 2 and
    resolves nothing. *)
Lemma upper_case_format_is_rejected :
  let given := mkNamespace ["report.pdf"] (Some "PDF") None false in
  caseless_eqb "PDF" "pdf" = true
  /\ determine_file_format (P := Demo.platform) "report.pdf" (Some "PDF") Demo.boot
     = (Val (Some "pdf"), Demo.boot)
  /\ main (P := Demo.platform) given Demo.boot = (Raise (SystemExit 2), Demo.boot)
  /\ exit_status (fst (main (P := Demo.platform) given Demo.boot)) = 2%Z.
Proof. cbv zeta. repeat split. Qed.

(** "a/doc.pdf" and "b/doc.docx" into the directory "out": after the
    first input the file holds its text, after the second the second's. *)
Lemma same_stem_same_output_file_witness :
  let args := mkNamespace ["a/doc.pdf"; "b/doc.docx"] None (Some "out") false in
  let st := snd (process_file (P := Demo.platform) args true "a/doc.pdf" Demo.boot) in
  let st' := snd (main (P := Demo.platform) args Demo.boot) in
  fst (os_path.splitext (os_path.basename "a/doc.pdf"))
  = fst (os_path.splitext (os_path.basename "b/doc.docx"))
  /\ Demo.content (fs st) "out/doc.txt" = Some "first"
  /\ Demo.content (fs st') "out/doc.txt" = Some "second".
Proof.
  cbv zeta. split; [reflexivity | split; [reflexivity|]].
  apply (proj2 (proj1 (proj2 (proj2
    (same_stem_same_output_file (P := Demo.platform)
       (mkNamespace ["a/doc.pdf"; "b/doc.docx"] None (Some "out") false)
       "out" "a/doc.pdf" "b/doc.docx" Demo.content
       eq_refl ltac:(discriminate) eq_refl demo_write_then_content)))
    "second"
    (snd (process_file (P := Demo.platform)
            (mkNamespace ["a/doc.pdf"; "b/doc.docx"] None (Some "out") false)
            true "a/doc.pdf" Demo.boot))
    (snd (main (P := Demo.platform)
            (mkNamespace ["a/doc.pdf"; "b/doc.docx"] None (Some "out") false)
            Demo.boot))
    "out/doc.txt" ltac:(discriminate) eq_refl eq_refl)).
Defined.

(** C9 as stated fails: "a/doc.pdf" holds "first" and "b/doc.docx" has
    no paragraph.  Both have the stem "doc" and both are given the path
    "out/doc.txt", but the later input extracts to the empty text, the
    router returns at once, and after the run the file still holds the
    earlier input's text: nothing was overwritten. *)
Lemma later_empty_text_keeps_earlier_output :
  let disk :=
    [ ("a/doc.pdf", Demo.Pdf "first");
      ("b/doc.docx", Demo.Docx (mkDocument []));
      ("out", Demo.Dir) ] in
  let args := mkNamespace ["a/doc.pdf"; "b/doc.docx"] None (Some "out") false in
  let r := main (P := Demo.platform) args (mkState disk []) in
  fst (os_path.splitext (os_path.basename "a/doc.pdf"))
  = fst (os_path.splitext (os_path.basename "b/doc.docx"))
  /\ output_is_dir (P := Demo.platform) args disk = true
  /\ fst (output_path_for (P := Demo.platform) args true "a/doc.pdf"
            (mkState disk [])) = Val (Some "out/doc.txt")
  /\ fst (output_path_for (P := Demo.platform) args true "b/doc.docx"
            (mkState disk [])) = Val (Some "out/doc.txt")
  /\ fst (extract_text (P := Demo.platform) "b/doc.docx" None false
            (mkState disk [])) = Val (Some "")
  /\ fst r = Val tt
  /\ stdout (snd r) = ["Text extracted to: out/doc.txt"]
  /\ Demo.content (fs (snd r)) "out/doc.txt" = Some "first"
  /\ Demo.content (fs (snd r)) "out/doc.txt" <> Some "".
Proof. cbv zeta. repeat split. discriminate. Qed.

(** "empty.docx" has no paragraph. *)
Lemma empty_document_like_failure_but_for_diagnostic_witness :
  Demo.read_docx "empty.docx" Demo.disk = Val (mkDocument [])
  /\ extract_text_from_docx (P := Demo.platform) "empty.docx" false Demo.boot
     = (Val "", Demo.boot).
Proof.
  split; [reflexivity|].
  apply (proj1
    (empty_document_like_failure_but_for_diagnostic (P := Demo.platform)
       "empty.docx" false Demo.boot)
    Demo.read_docx (mkDocument []) eq_refl eq_refl eq_refl).
  reflexivity.
Defined.

(** C10 as stated fails: the run on the empty "empty.docx" and the run
    on the broken "bad.docx" return the same and leave the same disk, but
    the console tells them apart; and with [-v] the run on the empty
    document does print. *)
Lemma empty_document_told_apart_from_failure :
  let quiet p := mkNamespace [p] None None false in
  let empty := main (P := Demo.platform) (quiet "empty.docx") Demo.boot in
  let failed := main (P := Demo.platform) (quiet "bad.docx") Demo.boot in
  let chatty :=
    main (P := Demo.platform) (mkNamespace ["empty.docx"] None None true) Demo.boot in
  Demo.read_docx "empty.docx" Demo.disk = Val (mkDocument [])
  /\ Demo.read_docx "bad.docx" Demo.disk = Raise (Exception "File is not a zip file")
  /\ fst empty = fst failed
  /\ fs (snd empty) = fs (snd failed)
  /\ stdout (snd empty) = []
  /\ stdout (snd failed) = ["Error extracting text from DOCX: File is not a zip file"]
  /\ stdout (snd empty) <> stdout (snd failed)
  /\ stdout (snd chatty)
     = [ "Processing file: empty.docx";
         "Processed 0 paragraphs from DOCX file: empty.docx" ].
Proof. cbv zeta. repeat split. discriminate. Qed.

(* ===================================================================== *)
(** * What a computation touches and how it can end *)
(* ===================================================================== *)

Section Frames.

Context {W : Type}.

Lemma reads_only_ret {A} (a : A) : reads_only (ret (W := W) a).
Proof. intros st. reflexivity. Qed.

Lemma reads_only_print (line : string) : reads_only (print (W := W) line).
Proof. intros st. reflexivity. Qed.

Lemma reads_only_ask {A} (q : W -> A) : reads_only (ask q).
Proof. intros st. reflexivity. Qed.

Lemma reads_only_call {A} (f : W -> outcome A) : reads_only (call f).
Proof. intros st. reflexivity. Qed.

Lemma reads_only_sys_exit {A} (code : Z) : reads_only (sys_exit (W := W) (A := A) code).
Proof. intros st. reflexivity. Qed.

Lemma reads_only_bind {A B} (m : M W A) (k : A -> M W B) :
  reads_only m -> (forall a, reads_only (k a)) -> reads_only (bind m k).
Proof.
  intros Hm Hk st. unfold bind. specialize (Hm st).
  destruct (m st) as [[a|e] st1]; cbn in *.
  - now rewrite Hk.
  - exact Hm.
Qed.

Lemma reads_only_try {A} (body : M W A) (handler : string -> M W A) :
  reads_only body -> (forall e, reads_only (handler e)) ->
  reads_only (try_except body handler).
Proof.
  intros Hb Hh st. unfold try_except. specialize (Hb st).
  destruct (body st) as [[a|[msg|code]] st1]; cbn in *;
    try exact Hb.
  now rewrite Hh.
Qed.

Lemma reads_only_for_each {A} (xs : list A) (body : A -> M W unit) :
  (forall x, reads_only (body x)) -> reads_only (for_each xs body).
Proof.
  intros Hb. induction xs as [|x xs IH]; cbn.
  - apply reads_only_ret.
  - apply reads_only_bind; [apply Hb | intros _; exact IH].
Qed.

Lemma contains_ret {A} (a : A) : contains_exceptions (ret (W := W) a).
Proof. intros st msg. discriminate. Qed.

Lemma contains_print (line : string) : contains_exceptions (print (W := W) line).
Proof. intros st msg. discriminate. Qed.

Lemma contains_bind {A B} (m : M W A) (k : A -> M W B) :
  contains_exceptions m -> (forall a, contains_exceptions (k a)) ->
  contains_exceptions (bind m k).
Proof.
  intros Hm Hk st msg. unfold bind. specialize (Hm st msg).
  destruct (m st) as [[a|e] st1]; cbn in *.
  - apply Hk.
  - intros [= ->]. now apply Hm.
Qed.

Lemma contains_try {A} (body : M W A) (handler : string -> M W A) :
  (forall e, contains_exceptions (handler e)) ->
  contains_exceptions (try_except body handler).
Proof.
  intros Hh st msg. unfold try_except.
  destruct (body st) as [[a|[m|code]] st1]; cbn; try discriminate.
  apply Hh.
Qed.

End Frames.

Create HintDb frame.

#[local] Hint Resolve reads_only_ret reads_only_print reads_only_ask
  reads_only_call reads_only_sys_exit contains_ret contains_print : frame.

(* ===================================================================== *)
(** * The resolver and the dispatch, whatever the input *)
(* ===================================================================== *)

Section Dispatch.

Context {P : Platform}.

Lemma selects_functional (file_path : string) (fmt : option string)
  (f f' : string) :
  selects file_path fmt f -> selects file_path fmt f' -> f = f'.
Proof.
  intros [_ H] [_ H']. destruct fmt as [[|c v]|].
  - rewrite H in H'. now injection H'.
  - congruence.
  - rewrite H in H'. now injection H'.
Qed.

Lemma resolver_cases (file_path : string) (fmt : option string) (st : state FS) :
  (exists f,
      selects file_path fmt f
      /\ determine_file_format file_path fmt st = (Val (Some f), st))
  \/ ((forall f, ~ selects file_path fmt f)
      /\ determine_file_format file_path fmt st
         = (Val None, after_print st (resolver_complaint file_path fmt))).
Proof.
  assert (Hext :
    (exists f,
        selects file_path None f
        /\ determine_file_format file_path None st = (Val (Some f), st))
    \/ ((forall f, ~ selects file_path None f)
        /\ determine_file_format file_path None st
           = (Val None,
              after_print st ("Error: Unsupported file format for " ++ file_path)))).
  { unfold determine_file_format, selects. cbn [Str.truthy_opt].
    destruct (String.eqb_spec (Str.lower (snd (os_path.splitext file_path))) ".pdf")
      as [E1|N1].
    { left. exists "pdf". now rewrite E1. }
    destruct (String.eqb_spec (Str.lower (snd (os_path.splitext file_path))) ".docx")
      as [E2|N2].
    { left. exists "docx". now rewrite E2. }
    destruct (String.eqb_spec (Str.lower (snd (os_path.splitext file_path))) ".pptx")
      as [E3|N3].
    { left. exists "pptx". now rewrite E3. }
    right. split; [|reflexivity].
    intros f [Hin Hf].
    destruct (in_formats_cases f Hin) as [-> | [-> | ->]]; contradiction. }
  destruct fmt as [[|c v]|].
  - exact Hext.
  - unfold determine_file_format, selects, resolver_complaint.
    cbn [Str.truthy_opt Str.truthy].
    destruct (in_formats (Str.lower (String c v))) eqn:Hin.
    + left. exists (Str.lower (String c v)). now repeat split.
    + right. split; [|reflexivity].
      intros f [Hf E]. rewrite E in Hin. congruence.
  - exact Hext.
Qed.

(** X1.  The resolver always returns and never touches the file system.
    It returns a format exactly when the path and the explicit format
    select one, which is then pdf, docx or pptx and the only one they
    select, and it prints nothing; otherwise it returns [None] and
    prints exactly one line of complaint. *)
Theorem resolver_selects_or_complains (file_path : string)
  (fmt : option string) (st : state FS) :
  ((exists f,
       selects file_path fmt f
       /\ in_formats f = true
       /\ (forall f', selects file_path fmt f' -> f' = f)
       /\ determine_file_format file_path fmt st = (Val (Some f), st))
   \/ ((forall f, ~ selects file_path fmt f)
       /\ determine_file_format file_path fmt st
          = (Val None, after_print st (resolver_complaint file_path fmt))))
  /\ fs (snd (determine_file_format file_path fmt st)) = fs st.
Proof.
  destruct (resolver_cases file_path fmt st) as [(f & Hsel & E) | [Hno E]].
  - split; [|now rewrite E].
    left. exists f.
    split; [exact Hsel | split; [apply Hsel | split; [|exact E]]].
    intros f' Hsel'. now apply (selects_functional file_path fmt).
  - split; [|now rewrite E]. right. now split.
Qed.

Lemma extract_text_cases (file_path : string) (fmt : option string)
  (v : bool) (st : state FS) :
  os_path_exists (fs st) file_path = true ->
  ((forall f, ~ selects file_path fmt f)
   /\ extract_text file_path fmt v st
      = (Val None, after_print st (resolver_complaint file_path fmt)))
  \/ (selects file_path fmt "pdf"
      /\ extract_text file_path fmt v st
         = (text <- extract_text_from_pdf file_path v ;; ret (Some text)) st)
  \/ (selects file_path fmt "docx"
      /\ extract_text file_path fmt v st
         = (text <- extract_text_from_docx file_path v ;; ret (Some text)) st)
  \/ (selects file_path fmt "pptx"
      /\ extract_text file_path fmt v st
         = (text <- extract_text_from_pptx file_path v ;; ret (Some text)) st).
Proof.
  intros Hex.
  assert (Hstep : extract_text file_path fmt v st
    = (file_format <- determine_file_format file_path fmt ;;
       match file_format with
       | None => ret None
       | Some file_format =>
           if negb (Str.truthy file_format) then ret None
           else if String.eqb file_format "pdf" then
             text <- extract_text_from_pdf file_path v ;; ret (Some text)
           else if String.eqb file_format "docx" then
             text <- extract_text_from_docx file_path v ;; ret (Some text)
           else if String.eqb file_format "pptx" then
             text <- extract_text_from_pptx file_path v ;; ret (Some text)
           else
             print ("Error: Unsupported file format for " ++ file_path) ;;
             ret None
       end) st).
  { unfold extract_text. unfold bind at 1. unfold ask. cbn [fs].
    rewrite Hex. reflexivity. }
  destruct (resolver_cases file_path fmt st) as [(f & Hsel & E) | [Hno E]].
  - destruct (in_formats_cases f (proj1 Hsel)) as [-> | [-> | ->]].
    + right; left. split; [exact Hsel|].
      rewrite Hstep. unfold bind at 1. now rewrite E.
    + right; right; left. split; [exact Hsel|].
      rewrite Hstep. unfold bind at 1. now rewrite E.
    + right; right; right. split; [exact Hsel|].
      rewrite Hstep. unfold bind at 1. now rewrite E.
  - left. split; [exact Hno|].
    rewrite Hstep. unfold bind at 1. now rewrite E.
Qed.

(** X2.  For a file that exists, [extract_text] either returns [None]
    with the resolver's complaint, when no format is selected, or is the
    extractor of the selected format with its text wrapped in [Some]:
    the last branch of the function, the one marked as not to happen, is
    never taken. *)
Theorem extract_text_dispatches (file_path : string) (fmt : option string)
  (v : bool) (st : state FS) :
  os_path_exists (fs st) file_path = true ->
  ((forall f, ~ selects file_path fmt f)
   /\ extract_text file_path fmt v st
      = (Val None, after_print st (resolver_complaint file_path fmt)))
  \/ (selects file_path fmt "pdf"
      /\ extract_text file_path fmt v st
         = (text <- extract_text_from_pdf file_path v ;; ret (Some text)) st)
  \/ (selects file_path fmt "docx"
      /\ extract_text file_path fmt v st
         = (text <- extract_text_from_docx file_path v ;; ret (Some text)) st)
  \/ (selects file_path fmt "pptx"
      /\ extract_text file_path fmt v st
         = (text <- extract_text_from_pptx file_path v ;; ret (Some text)) st).
Proof. apply extract_text_cases. Qed.

Lemma process_file_start (args : Namespace) (dir : bool)
  (file_path : string) (st : state FS) :
  process_file args dir file_path st
  = (text <- extract_text file_path (format args) (verbose args) ;;
     match text with
     | None => ret tt
     | Some text =>
         output_path <- output_path_for args dir file_path ;;
         handle_output text output_path file_path
     end)
      (if verbose args
       then after_print st ("Processing file: " ++ file_path) else st).
Proof.
  unfold process_file. unfold bind at 1.
  destruct (verbose args); reflexivity.
Qed.

(** X3.  An input path that does not exist is reported and skipped: the
    loop body prints "File not found" (after the progress line of
    [-v]), touches nothing else and returns, whatever the format option
    is and whether or not the libraries are installed; the loop goes on
    with the next input. *)
Theorem missing_file_is_skipped (args : Namespace) (dir : bool)
  (file_path : string) (rest : list string) (st : state FS) :
  os_path_exists (fs st) file_path = false ->
  let st' :=
    after_print
      (if verbose args
       then after_print st ("Processing file: " ++ file_path) else st)
      ("Error: File not found: " ++ file_path) in
  process_file args dir file_path st = (Val tt, st')
  /\ for_each (file_path :: rest) (process_file args dir) st
     = for_each rest (process_file args dir) st'.
Proof.
  intros Hex st'.
  assert (E : process_file args dir file_path st = (Val tt, st')).
  { rewrite process_file_start. unfold extract_text.
    unfold bind at 1. unfold bind at 1. unfold ask.
    assert (Hfs : fs (if verbose args
                      then after_print st ("Processing file: " ++ file_path)
                      else st) = fs st) by (destruct (verbose args); reflexivity).
    rewrite Hfs, Hex. reflexivity. }
  split; [exact E|].
  cbn [for_each]. unfold bind at 1. now rewrite E.
Qed.

(** X4.  An input that exists but selects no format is reported and
    skipped in the same way: one line of complaint from the resolver, no
    library is consulted, the loop goes on with the next input. *)
Theorem unresolved_format_is_skipped (args : Namespace) (dir : bool)
  (file_path : string) (rest : list string) (st : state FS) :
  os_path_exists (fs st) file_path = true ->
  (forall f, ~ selects file_path (format args) f) ->
  let st' :=
    after_print
      (if verbose args
       then after_print st ("Processing file: " ++ file_path) else st)
      (resolver_complaint file_path (format args)) in
  process_file args dir file_path st = (Val tt, st')
  /\ for_each (file_path :: rest) (process_file args dir) st
     = for_each rest (process_file args dir) st'.
Proof.
  intros Hex Hno st'.
  assert (E : process_file args dir file_path st = (Val tt, st')).
  { rewrite process_file_start. unfold bind at 1.
    set (st1 := if verbose args
                then after_print st ("Processing file: " ++ file_path) else st).
    assert (Hex1 : os_path_exists (fs st1) file_path = true).
    { subst st1. destruct (verbose args); exact Hex. }
    destruct (extract_text_cases file_path (format args) (verbose args)
                st1 Hex1) as [[_ E] | [[H _] | [[H _] | [H _]]]];
      try (exfalso; exact (Hno _ H)).
    rewrite E. reflexivity. }
  split; [exact E|].
  cbn [for_each]. unfold bind at 1. now rewrite E.
Qed.

End Dispatch.

(* ===================================================================== *)
(** * What the extractors and the console mode never do *)
(* ===================================================================== *)

Section Containment.

Context {P : Platform}.

Lemma reads_only_extract_pdf_text (file_path : string) :
  reads_only (extract_pdf_text file_path).
Proof.
  unfold extract_pdf_text. destruct pdfminer_extract_text.
  - apply reads_only_call.
  - apply reads_only_bind; auto with frame.
Qed.

Lemma reads_only_open_docx (file_path : string) :
  reads_only (open_docx file_path).
Proof.
  unfold open_docx. destruct docx_Document.
  - apply reads_only_call.
  - apply reads_only_bind; auto with frame.
Qed.

Lemma reads_only_open_pptx (file_path : string) :
  reads_only (open_pptx file_path).
Proof.
  unfold open_pptx. destruct pptx_Presentation.
  - apply reads_only_call.
  - apply reads_only_bind; auto with frame.
Qed.

Lemma reads_only_pdf (file_path : string) (v : bool) :
  reads_only (extract_text_from_pdf file_path v).
Proof.
  unfold extract_text_from_pdf. apply reads_only_try.
  - apply reads_only_bind; [apply reads_only_extract_pdf_text|].
    intros text. apply reads_only_bind; [|auto with frame].
    destruct v; [|auto with frame].
    apply reads_only_bind; auto with frame.
  - intros e. apply reads_only_bind; auto with frame.
Qed.

Lemma reads_only_docx (file_path : string) (v : bool) :
  reads_only (extract_text_from_docx file_path v).
Proof.
  unfold extract_text_from_docx. apply reads_only_try.
  - apply reads_only_bind; [apply reads_only_open_docx|].
    intros doc. apply reads_only_bind; [|auto with frame].
    destruct v; auto with frame.
  - intros e. apply reads_only_bind; auto with frame.
Qed.

Lemma reads_only_pptx (file_path : string) (v : bool) :
  reads_only (extract_text_from_pptx file_path v).
Proof.
  unfold extract_text_from_pptx. apply reads_only_try.
  - apply reads_only_bind; [apply reads_only_open_pptx|].
    intros deck. destruct (collect_slides (slides deck) 1 [] 0).
    apply reads_only_bind; [|auto with frame].
    destruct v; auto with frame.
  - intros e. apply reads_only_bind; auto with frame.
Qed.

(** X5.  The three extractors never let an [Exception] out, whatever
    the libraries and the file system do, and they never change the file
    system: they end with a text or, at most, with [SystemExit]. *)
Theorem extractors_contain_exceptions (file_path : string) (v : bool)
  (st : state FS) :
  (forall msg,
      fst (extract_text_from_pdf file_path v st) <> Raise (Exception msg)
      /\ fst (extract_text_from_docx file_path v st) <> Raise (Exception msg)
      /\ fst (extract_text_from_pptx file_path v st) <> Raise (Exception msg))
  /\ fs (snd (extract_text_from_pdf file_path v st)) = fs st
  /\ fs (snd (extract_text_from_docx file_path v st)) = fs st
  /\ fs (snd (extract_text_from_pptx file_path v st)) = fs st.
Proof.
  assert (Hh : forall (prefix e : string),
             contains_exceptions (W := FS) (print (prefix ++ e) ;; ret "")).
  { intros prefix e. apply contains_bind; auto with frame. }
  split; [|split; [|split]].
  - intros msg. repeat split.
    + unfold extract_text_from_pdf. apply contains_try. intros e. apply Hh.
    + unfold extract_text_from_docx. apply contains_try. intros e. apply Hh.
    + unfold extract_text_from_pptx. apply contains_try. intros e. apply Hh.
  - apply reads_only_pdf.
  - apply reads_only_docx.
  - apply reads_only_pptx.
Qed.

Lemma reads_only_resolver (file_path : string) (fmt : option string) :
  reads_only (determine_file_format file_path fmt).
Proof.
  intros st.
  destruct (resolver_cases file_path fmt st) as [(f & _ & E) | [_ E]];
    now rewrite E.
Qed.

Lemma reads_only_extract_text (file_path : string) (fmt : option string)
  (v : bool) :
  reads_only (extract_text file_path fmt v).
Proof.
  unfold extract_text. apply reads_only_bind; [auto with frame|].
  intros ex. destruct (negb ex).
  - apply reads_only_bind; auto with frame.
  - apply reads_only_bind; [apply reads_only_resolver|].
    intros [f|]; [|auto with frame].
    destruct (negb (Str.truthy f)); [auto with frame|].
    destruct (String.eqb f "pdf").
    { apply reads_only_bind; [apply reads_only_pdf | auto with frame]. }
    destruct (String.eqb f "docx").
    { apply reads_only_bind; [apply reads_only_docx | auto with frame]. }
    destruct (String.eqb f "pptx").
    { apply reads_only_bind; [apply reads_only_pptx | auto with frame]. }
    apply reads_only_bind; auto with frame.
Qed.

Lemma output_path_for_console (args : Namespace) (dir : bool)
  (file_path : string) (st : state FS) :
  Str.truthy_opt (output args) = false ->
  output_path_for args dir file_path st = (Val None, st).
Proof.
  intros H. unfold output_path_for.
  destruct (output args) as [out|]; [|reflexivity].
  cbn in H. now rewrite H.
Qed.

Lemma handle_output_console (text input_path : string) (st : state FS) :
  handle_output text None input_path st
  = (Val tt, if Str.truthy text then after_print st text else st).
Proof.
  unfold handle_output. destruct (Str.truthy text); reflexivity.
Qed.

Lemma reads_only_process_file_console (args : Namespace) (dir : bool)
  (file_path : string) :
  Str.truthy_opt (output args) = false ->
  reads_only (process_file args dir file_path).
Proof.
  intros Hout. unfold process_file.
  apply reads_only_bind; [destruct (verbose args); auto with frame|].
  intros _. apply reads_only_bind; [apply reads_only_extract_text|].
  intros [text|]; [|auto with frame].
  intros st. unfold bind.
  rewrite (output_path_for_console args dir file_path st Hout).
  rewrite handle_output_console. destruct (Str.truthy text); reflexivity.
Qed.

(** X6.  Without an output path the program only reads: after [run] the
    file system is what it was, however the run ends and whatever the
    inputs are. *)
Theorem console_mode_reads_only (args : Namespace) (st : state FS) :
  Str.truthy_opt (output args) = false ->
  fs (snd (run args st)) = fs st.
Proof.
  intros Hout. unfold run.
  apply (reads_only_bind (ask (output_is_dir args))
           (fun d => for_each (file_paths args) (process_file args d)));
    [auto with frame|].
  intros d. apply reads_only_for_each.
  intros x. now apply reads_only_process_file_console.
Qed.

End Containment.

(* ===================================================================== *)
(** * How the batch can end *)
(* ===================================================================== *)

Section Completion.

Context {P : Platform}.

Lemma contains_ask {A} (q : FS -> A) : contains_exceptions (ask q).
Proof. intros st msg. discriminate. Qed.

Lemma contains_report (prefix e : string) :
  contains_exceptions (W := FS) (print (prefix ++ e) ;; ret "").
Proof. apply contains_bind; auto with frame. Qed.

Lemma contains_resolver (file_path : string) (fmt : option string) :
  contains_exceptions (determine_file_format file_path fmt).
Proof.
  intros st msg.
  destruct (resolver_cases file_path fmt st) as [(f & _ & E) | [_ E]];
    rewrite E; discriminate.
Qed.

Lemma contains_extract_text (file_path : string) (fmt : option string)
  (v : bool) :
  contains_exceptions (extract_text file_path fmt v).
Proof.
  unfold extract_text. apply contains_bind; [apply contains_ask|].
  intros ex. destruct (negb ex).
  - apply contains_bind; auto with frame.
  - apply contains_bind; [apply contains_resolver|].
    intros [f|]; [|auto with frame].
    destruct (negb (Str.truthy f)); [auto with frame|].
    destruct (String.eqb f "pdf").
    { apply contains_bind; [|auto with frame].
      unfold extract_text_from_pdf. apply contains_try.
      intros e. apply contains_report. }
    destruct (String.eqb f "docx").
    { apply contains_bind; [|auto with frame].
      unfold extract_text_from_docx. apply contains_try.
      intros e. apply contains_report. }
    destruct (String.eqb f "pptx").
    { apply contains_bind; [|auto with frame].
      unfold extract_text_from_pptx. apply contains_try.
      intros e. apply contains_report. }
    apply contains_bind; auto with frame.
Qed.

Lemma contains_write_output_file (output_file text : string) :
  contains_exceptions (write_output_file output_file text).
Proof.
  unfold write_output_file. apply contains_try.
  intros e. apply contains_print.
Qed.

Lemma contains_process_file_console (args : Namespace) (dir : bool)
  (file_path : string) :
  Str.truthy_opt (output args) = false ->
  contains_exceptions (process_file args dir file_path).
Proof.
  intros Hout. unfold process_file.
  apply contains_bind; [destruct (verbose args); auto with frame|].
  intros _. apply contains_bind; [apply contains_extract_text|].
  intros [text|]; [|auto with frame].
  intros st msg. unfold bind.
  rewrite (output_path_for_console args dir file_path st Hout).
  rewrite handle_output_console. discriminate.
Qed.

Lemma contains_for_each {A} (xs : list A) (body : A -> M FS unit) :
  (forall x, contains_exceptions (body x)) ->
  contains_exceptions (for_each xs body).
Proof.
  intros Hb. induction xs as [|x xs IH]; cbn.
  - apply contains_ret.
  - apply contains_bind; [apply Hb | intros _; exact IH].
Qed.

Lemma blames_of_contains {A} (m : M FS A) :
  contains_exceptions m -> blames_makedirs m.
Proof.
  intros Hm st msg st' E. exfalso. apply (Hm st msg). now rewrite E.
Qed.

Lemma blames_bind {A B} (m : M FS A) (k : A -> M FS B) :
  blames_makedirs m -> (forall a, blames_makedirs (k a)) ->
  blames_makedirs (bind m k).
Proof.
  intros Hm Hk st msg st' E. unfold bind in E.
  destruct (m st) as [[a|e] st1] eqn:Em.
  - exact (Hk a st1 msg st' E).
  - injection E as -> ->. exact (Hm st msg st' Em).
Qed.

Lemma blames_effect_makedirs (path : string) :
  blames_makedirs (effect (os_makedirs path)).
Proof.
  intros st msg st' E. unfold effect in E.
  destruct (os_makedirs path (fs st)) as [r w] eqn:Emk.
  injection E as -> <-. now exists path, (fs st).
Qed.

Lemma blames_for_each {A} (xs : list A) (body : A -> M FS unit) :
  (forall x, blames_makedirs (body x)) -> blames_makedirs (for_each xs body).
Proof.
  intros Hb. induction xs as [|x xs IH]; cbn.
  - apply blames_of_contains, contains_ret.
  - apply blames_bind; [apply Hb | intros _; exact IH].
Qed.

Lemma blames_choose_output_file (output_path input_path : string) :
  blames_makedirs (choose_output_file output_path input_path).
Proof.
  unfold choose_output_file.
  apply blames_bind; [apply blames_of_contains, contains_ask|]. intros is_dir.
  apply blames_bind; [apply blames_of_contains, contains_ask|]. intros ex.
  destruct (is_dir || negb ex && Str.endswith output_path os_path.os_sep).
  - apply blames_bind; [apply blames_effect_makedirs|].
    intros _. apply blames_of_contains, contains_ret.
  - apply blames_bind; [apply blames_of_contains, contains_ask|]. intros dex.
    apply blames_bind; [|intros _; apply blames_of_contains, contains_ret].
    destruct (Str.truthy (os_path.dirname output_path) && negb dex).
    + apply blames_effect_makedirs.
    + apply blames_of_contains, contains_ret.
Qed.

Lemma blames_handle_output (text : string) (output_path : option string)
  (input_path : string) :
  blames_makedirs (handle_output text output_path input_path).
Proof.
  unfold handle_output.
  destruct (negb (Str.truthy text)); [apply blames_of_contains, contains_ret|].
  destruct output_path as [o|]; [|apply blames_of_contains, contains_print].
  destruct (negb (Str.truthy o)); [apply blames_of_contains, contains_print|].
  apply blames_bind; [apply blames_choose_output_file|].
  intros f. apply blames_of_contains, contains_write_output_file.
Qed.

Lemma blames_output_path_for (args : Namespace) (dir : bool)
  (file_path : string) :
  blames_makedirs (output_path_for args dir file_path).
Proof.
  unfold output_path_for.
  destruct (output args) as [out|]; [|apply blames_of_contains, contains_ret].
  destruct (negb (Str.truthy out)); [apply blames_of_contains, contains_ret|].
  destruct dir; [|apply blames_of_contains, contains_ret].
  apply blames_bind; [apply blames_effect_makedirs|].
  intros _. apply blames_of_contains, contains_ret.
Qed.

Lemma blames_process_file (args : Namespace) (dir : bool) (file_path : string) :
  blames_makedirs (process_file args dir file_path).
Proof.
  unfold process_file.
  apply blames_bind;
    [apply blames_of_contains; destruct (verbose args); auto with frame|].
  intros _.
  apply blames_bind; [apply blames_of_contains, contains_extract_text|].
  intros [text|]; [|apply blames_of_contains, contains_ret].
  apply blames_bind; [apply blames_output_path_for|].
  intros op. apply blames_handle_output.
Qed.

Lemma blames_run (args : Namespace) : blames_makedirs (run args).
Proof.
  unfold run.
  apply blames_bind; [apply blames_of_contains, contains_ask|].
  intros d. apply blames_for_each. intros x. apply blames_process_file.
Qed.

Lemma contains_run_console (args : Namespace) :
  Str.truthy_opt (output args) = false -> contains_exceptions (run args).
Proof.
  intros Hout. unfold run. apply contains_bind; [apply contains_ask|].
  intros d. apply contains_for_each.
  intros x. now apply contains_process_file_console.
Qed.

Lemma never_ret {A} (a : A) : never_exits (ret (W := FS) a).
Proof. intros st code. discriminate. Qed.

Lemma never_print (line : string) : never_exits (print (W := FS) line).
Proof. intros st code. discriminate. Qed.

Lemma never_ask {A} (q : FS -> A) : never_exits (ask q).
Proof. intros st code. discriminate. Qed.

Lemma never_call {A} (f : FS -> outcome A) :
  (forall w, no_exit (f w)) -> never_exits (call f).
Proof. intros Hf st code. apply Hf. Qed.

Lemma never_effect {A} (f : FS -> outcome A * FS) :
  (forall w, no_exit (fst (f w))) -> never_exits (effect f).
Proof.
  intros Hf st code. unfold effect. specialize (Hf (fs st) code).
  now destruct (f (fs st)).
Qed.

Lemma never_bind {A B} (m : M FS A) (k : A -> M FS B) :
  never_exits m -> (forall a, never_exits (k a)) -> never_exits (bind m k).
Proof.
  intros Hm Hk st code. unfold bind. specialize (Hm st code).
  destruct (m st) as [[a|e] st1]; cbn in *.
  - apply Hk.
  - intros [= ->]. now apply Hm.
Qed.

Lemma never_try {A} (body : M FS A) (handler : string -> M FS A) :
  never_exits body -> (forall e, never_exits (handler e)) ->
  never_exits (try_except body handler).
Proof.
  intros Hb Hh st code. unfold try_except. specialize (Hb st code).
  destruct (body st) as [[a|[msg|c]] st1]; cbn in *; try exact Hb.
  apply Hh.
Qed.

Lemma never_for_each {A} (xs : list A) (body : A -> M FS unit) :
  (forall x, never_exits (body x)) -> never_exits (for_each xs body).
Proof.
  intros Hb. induction xs as [|x xs IH]; cbn.
  - apply never_ret.
  - apply never_bind; [apply Hb | intros _; exact IH].
Qed.

Lemma never_report (prefix e : string) :
  never_exits (W := FS) (print (prefix ++ e) ;; ret "").
Proof. apply never_bind; [apply never_print | intros _; apply never_ret]. Qed.

Lemma never_pdf (file_path : string) (v : bool) :
  libraries_behave -> never_exits (extract_text_from_pdf file_path v).
Proof.
  intros ((e & He & Hne) & _ & _ & Hraw).
  unfold extract_text_from_pdf, extract_pdf_text. rewrite He.
  apply never_try; [|intros msg; apply never_report].
  apply never_bind; [apply never_call; intros w; apply Hne|].
  intros text. apply never_bind; [|intros _; apply never_ret].
  destruct v; [|apply never_ret].
  apply never_bind; [apply never_call; intros w; apply Hraw|].
  intros raw. apply never_print.
Qed.

Lemma never_docx (file_path : string) (v : bool) :
  libraries_behave -> never_exits (extract_text_from_docx file_path v).
Proof.
  intros (_ & (o & Ho & Hne) & _ & _).
  unfold extract_text_from_docx, open_docx. rewrite Ho.
  apply never_try; [|intros msg; apply never_report].
  apply never_bind; [apply never_call; intros w; apply Hne|].
  intros doc. apply never_bind; [|intros _; apply never_ret].
  destruct v; [apply never_print | apply never_ret].
Qed.

Lemma never_pptx (file_path : string) (v : bool) :
  libraries_behave -> never_exits (extract_text_from_pptx file_path v).
Proof.
  intros (_ & _ & (o & Ho & Hne) & _).
  unfold extract_text_from_pptx, open_pptx. rewrite Ho.
  apply never_try; [|intros msg; apply never_report].
  apply never_bind; [apply never_call; intros w; apply Hne|].
  intros deck. destruct (collect_slides (slides deck) 1 [] 0).
  apply never_bind; [|intros _; apply never_ret].
  destruct v; [apply never_print | apply never_ret].
Qed.

Lemma never_resolver (file_path : string) (fmt : option string) :
  never_exits (determine_file_format file_path fmt).
Proof.
  intros st code.
  destruct (resolver_cases file_path fmt st) as [(f & _ & E) | [_ E]];
    rewrite E; discriminate.
Qed.

Lemma never_extract_text (file_path : string) (fmt : option string) (v : bool) :
  libraries_behave -> never_exits (extract_text file_path fmt v).
Proof.
  intros Hlib. unfold extract_text. apply never_bind; [apply never_ask|].
  intros ex. destruct (negb ex).
  - apply never_bind; [apply never_print | intros _; apply never_ret].
  - apply never_bind; [apply never_resolver|].
    intros [f|]; [|apply never_ret].
    destruct (negb (Str.truthy f)); [apply never_ret|].
    destruct (String.eqb f "pdf").
    { apply never_bind; [now apply never_pdf | intros t; apply never_ret]. }
    destruct (String.eqb f "docx").
    { apply never_bind; [now apply never_docx | intros t; apply never_ret]. }
    destruct (String.eqb f "pptx").
    { apply never_bind; [now apply never_pptx | intros t; apply never_ret]. }
    apply never_bind; [apply never_print | intros _; apply never_ret].
Qed.

Lemma never_choose_output_file (output_path input_path : string) :
  makedirs_never_exits ->
  never_exits (choose_output_file output_path input_path).
Proof.
  intros Hmk. unfold choose_output_file.
  apply never_bind; [apply never_ask|]. intros is_dir.
  apply never_bind; [apply never_ask|]. intros ex.
  destruct (is_dir || negb ex && Str.endswith output_path os_path.os_sep).
  - apply never_bind; [apply never_effect; intros w; apply Hmk|].
    intros _. apply never_ret.
  - apply never_bind; [apply never_ask|]. intros dex.
    apply never_bind; [|intros _; apply never_ret].
    destruct (Str.truthy (os_path.dirname output_path) && negb dex).
    + apply never_effect. intros w. apply Hmk.
    + apply never_ret.
Qed.

Lemma never_write_output_file (output_file text : string) :
  writes_never_exit -> never_exits (write_output_file output_file text).
Proof.
  intros Hw. unfold write_output_file.
  apply never_try; [|intros e; apply never_print].
  apply never_bind; [apply never_effect; intros w; apply Hw|].
  intros _. apply never_print.
Qed.

Lemma never_process_file (args : Namespace) (dir : bool) (file_path : string) :
  libraries_behave -> writes_never_exit -> makedirs_never_exits ->
  never_exits (process_file args dir file_path).
Proof.
  intros Hlib Hw Hmk. unfold process_file.
  apply never_bind;
    [destruct (verbose args); [apply never_print | apply never_ret]|].
  intros _. apply never_bind; [now apply never_extract_text|].
  intros [text|]; [|apply never_ret].
  apply never_bind.
  - unfold output_path_for.
    destruct (output args) as [out|]; [|apply never_ret].
    destruct (negb (Str.truthy out)); [apply never_ret|].
    destruct dir; [|apply never_ret].
    apply never_bind; [apply never_effect; intros w; apply Hmk|].
    intros _. apply never_ret.
  - intros op. unfold handle_output.
    destruct (negb (Str.truthy text)); [apply never_ret|].
    destruct op as [o|]; [|apply never_print].
    destruct (negb (Str.truthy o)); [apply never_print|].
    apply never_bind; [now apply never_choose_output_file|].
    intros f. now apply never_write_output_file.
Qed.

Lemma never_run (args : Namespace) :
  libraries_behave -> writes_never_exit -> makedirs_never_exits ->
  never_exits (run args).
Proof.
  intros Hlib Hw Hmk. unfold run. apply never_bind; [apply never_ask|].
  intros d. apply never_for_each. intros x. now apply never_process_file.
Qed.

Lemma parse_args_cases (given : Namespace) (st : state FS) :
  parse_args given st = (Val given, st)
  \/ parse_args given st = (Raise (SystemExit 2), st).
Proof.
  unfold parse_args.
  destruct (format given) as [v|]; [destruct (in_formats v)|];
    destruct (file_paths given); auto.
Qed.

(** X7.  An [Exception] leaves the loop over the inputs only when an
    output path is given and [os.makedirs] has raised it: missing files,
    unsupported formats, broken documents and failed writes are all
    absorbed.  So, with the three libraries installed and no call
    leaving through [SystemExit], the loop either returns, with status
    0, or ends with the exception of [os.makedirs], with status 1;
    without an output path it always returns.  [main] adds only the
    parser's status 2. *)
Theorem batch_completes (given : Namespace) (st : state FS) :
  (forall msg st',
      run given st = (Raise (Exception msg), st') ->
      Str.truthy_opt (output given) = true
      /\ exists path w, os_makedirs path w = (Raise (Exception msg), fs st'))
  /\ (libraries_behave -> writes_never_exit -> makedirs_never_exits ->
      (fst (run given st) = Val tt
       /\ exit_status (fst (run given st)) = 0%Z)
      \/ (exists msg path w,
             fst (run given st) = Raise (Exception msg)
             /\ exit_status (fst (run given st)) = 1%Z
             /\ Str.truthy_opt (output given) = true
             /\ os_makedirs path w
                = (Raise (Exception msg), fs (snd (run given st)))))
  /\ (libraries_behave -> writes_never_exit -> makedirs_never_exits ->
      Str.truthy_opt (output given) = false ->
      fst (run given st) = Val tt)
  /\ (libraries_behave -> writes_never_exit -> makedirs_never_exits ->
      main given st = run given st
      \/ main given st = (Raise (SystemExit 2), st)).
Proof.
  assert (Hblame : forall msg st',
      run given st = (Raise (Exception msg), st') ->
      Str.truthy_opt (output given) = true
      /\ exists path w, os_makedirs path w = (Raise (Exception msg), fs st')).
  { intros msg st' E. split.
    - destruct (Str.truthy_opt (output given)) eqn:Hout; [reflexivity|].
      exfalso. apply (contains_run_console given Hout st msg). now rewrite E.
    - exact (blames_run given st msg st' E). }
  assert (Hcases : libraries_behave -> writes_never_exit -> makedirs_never_exits ->
      (fst (run given st) = Val tt
       /\ exit_status (fst (run given st)) = 0%Z)
      \/ (exists msg path w,
             fst (run given st) = Raise (Exception msg)
             /\ exit_status (fst (run given st)) = 1%Z
             /\ Str.truthy_opt (output given) = true
             /\ os_makedirs path w
                = (Raise (Exception msg), fs (snd (run given st))))).
  { intros Hlib Hw Hmk.
    pose proof (never_run given Hlib Hw Hmk st) as Hnever.
    destruct (run given st) as [[[]|[msg|code]] st'] eqn:E; cbn [fst snd] in *.
    - left. now split.
    - right. destruct (Hblame msg st' eq_refl) as (Hout & path & w & Hmkd).
      exists msg, path, w. now repeat split.
    - exfalso. now apply (Hnever code). }
  split; [exact Hblame | split; [exact Hcases | split]].
  - intros Hlib Hw Hmk Hout.
    destruct (Hcases Hlib Hw Hmk) as [[H _] | (msg & path & w & _ & _ & H & _)];
      [exact H | congruence].
  - intros _ _ _. unfold main, bind.
    destruct (parse_args_cases given st) as [E | E]; rewrite E; auto.
Qed.

End Completion.

(* ===================================================================== *)
(** * What the extracted text and the verbose lines say *)
(* ===================================================================== *)

Section Texts.

Context {P : Platform}.

Lemma append_empty_r (s : string) : s ++ "" = s.
Proof. induction s as [|c s IH]; cbn; [reflexivity | now rewrite IH]. Qed.

Lemma append_assoc (a b c : string) : (a ++ b) ++ c = a ++ (b ++ c).
Proof. induction a as [|x a IH]; cbn; [reflexivity | now rewrite IH]. Qed.

Lemma collect_slides_count (ss : list Slide) (i : nat) (acc : list string) (n : nat) :
  snd (collect_slides ss i acc n) = n + List.length (flat_map shape_texts ss).
Proof.
  revert i acc n. induction ss as [|s ss IH]; intros i acc n; cbn.
  - lia.
  - destruct s as [shs]. cbn [shapes]. rewrite collect_shapes_spec.
    rewrite IH, length_app. lia.
Qed.

Lemma deck_lines_length (ss : list Slide) (i : nat) :
  List.length (deck_lines i ss)
  = List.length (flat_map shape_texts ss) + List.length (slides_with_text ss).
Proof.
  unfold slides_with_text.
  revert i. induction ss as [|s ss IH]; intros i;
    cbn [deck_lines flat_map filter].
  - reflexivity.
  - rewrite !length_app, IH. unfold slide_lines.
    destruct (shape_texts s); cbn [List.length]; lia.
Qed.

(** X8.  With [-v] the PPTX extractor reports the number of slides of
    the deck and the number of text-bearing shapes over all slides, and
    returns the same text as without [-v]; the entries of that text are
    the text-bearing shapes plus one separator for each slide that has
    one. *)
Theorem pptx_verbose_counts (open : string -> FS -> outcome Presentation)
  (file_path : string) (deck : Presentation) (st : state FS) :
  pptx_Presentation = Some open ->
  open file_path (fs st) = Val deck ->
  extract_text_from_pptx file_path true st
  = (Val (Str.join (String "010" "") (deck_lines 1 (slides deck))),
     after_print st
       ("Processed " ++ Str.of_nat (List.length (slides deck))
        ++ " slides and "
        ++ Str.of_nat (List.length (flat_map shape_texts (slides deck)))
        ++ " text elements from PPTX file: " ++ file_path))
  /\ fst (extract_text_from_pptx file_path false st)
     = fst (extract_text_from_pptx file_path true st)
  /\ List.length (deck_lines 1 (slides deck))
     = List.length (flat_map shape_texts (slides deck))
       + List.length (slides_with_text (slides deck)).
Proof.
  intros Hlib Hopen. split; [|split].
  - unfold extract_text_from_pptx, open_pptx. rewrite Hlib. step_monad.
    rewrite Hopen.
    pose proof (collect_slides_spec (slides deck) 1 [] 0) as Hparts.
    pose proof (collect_slides_count (slides deck) 1 [] 0) as Hcount.
    destruct (collect_slides (slides deck) 1 [] 0) as [parts count].
    cbn in Hparts, Hcount. subst parts count. reflexivity.
  - destruct (pptx_opened open file_path false deck st Hlib Hopen) as [-> _].
    destruct (pptx_opened open file_path true deck st Hlib Hopen) as [-> _].
    reflexivity.
  - apply deck_lines_length.
Qed.

Lemma split_from_clean (c : ascii) (a rest cur : string) :
  has_char c a = false ->
  split_from c (a ++ rest) cur = split_from c rest (cur ++ a).
Proof.
  revert cur. induction a as [|x a IH]; intros cur Ha; cbn in *.
  - now rewrite append_empty_r.
  - apply orb_false_iff in Ha as [Hx Ha]. rewrite Hx.
    rewrite (IH _ Ha), append_assoc. reflexivity.
Qed.

Lemma split_join (c : ascii) (ps : list string) :
  ps <> [] ->
  Forall (fun p => has_char c p = false) ps ->
  split_on c (Str.join (String c "") ps) = ps.
Proof.
  intros Hne Hall. unfold split_on, Str.join.
  induction Hall as [|p ps Hp Hps IH]; [congruence|].
  destruct ps as [|q ps].
  - cbn [String.concat]. rewrite <- (append_empty_r p) at 1.
    rewrite (split_from_clean c p "" "" Hp). reflexivity.
  - change (String.concat (String c "") (p :: q :: ps))
      with (p ++ String c (String.concat (String c "") (q :: ps))).
    rewrite (split_from_clean c p _ "" Hp). cbn [split_from append].
    rewrite Ascii.eqb_refl. f_equal. apply IH. discriminate.
Qed.

(** X9.  The DOCX extractor returns the paragraph texts joined by
    newlines, so that, when the document has a paragraph and no
    paragraph text holds a newline, splitting the result at the newlines
    gives the paragraph texts back, empty ones included; with [-v] it
    reports the number of paragraphs. *)
Theorem docx_paragraphs_recoverable (open : string -> FS -> outcome Document)
  (file_path : string) (v : bool) (doc : Document) (st : state FS) :
  docx_Document = Some open ->
  open file_path (fs st) = Val doc ->
  paragraphs doc <> [] ->
  Forall (fun p => has_char "010" (para_text p) = false) (paragraphs doc) ->
  (exists text,
      fst (extract_text_from_docx file_path v st) = Val text
      /\ split_on "010" text = map para_text (paragraphs doc))
  /\ snd (extract_text_from_docx file_path true st)
     = after_print st
         ("Processed " ++ Str.of_nat (List.length (paragraphs doc))
          ++ " paragraphs from DOCX file: " ++ file_path).
Proof.
  intros Hlib Hopen Hne Hclean. split.
  - destruct (docx_opened open file_path v doc st Hlib Hopen) as [Hv _].
    eexists. split; [exact Hv|].
    apply split_join.
    + destruct (paragraphs doc); [congruence | discriminate].
    + apply Forall_map. exact Hclean.
  - unfold extract_text_from_docx, open_docx. rewrite Hlib. step_monad.
    rewrite Hopen. cbn. now rewrite length_map.
Qed.

Lemma lines_from_line (l rest cur : string) :
  has_char "010" l = false ->
  Str.lines_from (l ++ String "010" rest) cur
  = (cur ++ l ++ String "010" "") :: Str.lines_from rest "".
Proof.
  revert cur. induction l as [|c l IH]; intros cur Hl.
  - reflexivity.
  - cbn [has_char] in Hl. apply orb_false_iff in Hl as [Hc Hl].
    cbn [append Str.lines_from]. rewrite Hc, (IH _ Hl), append_assoc.
    reflexivity.
Qed.

Lemma lines_from_last (l cur : string) :
  has_char "010" l = false ->
  Str.lines_from l cur
  = match cur ++ l with EmptyString => [] | x => [x] end.
Proof.
  revert cur. induction l as [|c l IH]; intros cur Hl.
  - cbn [Str.lines_from]. rewrite append_empty_r. now destruct cur.
  - cbn [has_char] in Hl. apply orb_false_iff in Hl as [Hc Hl].
    cbn [Str.lines_from]. rewrite Hc, (IH _ Hl), append_assoc.
    reflexivity.
Qed.

Lemma prefix_before_newline (p l : string) :
  has_char "010" p = false ->
  p <> "" ->
  String.prefix p (l ++ String "010" "") = String.prefix p l.
Proof.
  revert p. induction l as [|a l IH]; intros [|c p] Hp Hne;
    try congruence; cbn [has_char] in Hp;
    apply orb_false_iff in Hp as [Hc Hp]; cbn [append String.prefix].
  - destruct (ascii_dec c "010") as [E | _]; [|reflexivity].
    subst c. discriminate.
  - destruct (ascii_dec c a) as [_ | _]; [|reflexivity].
    destruct p as [|d p].
    + now destruct l.
    + apply IH; [exact Hp | discriminate].
Qed.

Lemma contains_before_newline (p l : string) :
  has_char "010" p = false ->
  p <> "" ->
  Str.contains (l ++ String "010" "") p = Str.contains l p.
Proof.
  intros Hp Hne. induction l as [|a l IH].
  - pose proof (prefix_before_newline p "" Hp Hne) as H.
    cbn [append] in H. cbn [append Str.contains]. rewrite H.
    now destruct (String.prefix p "").
  - change (String a l ++ String "010" "")
      with (String a (l ++ String "010" "")).
    cbn [Str.contains].
    change (String a (l ++ String "010" ""))
      with (String a l ++ String "010" "").
    now rewrite (prefix_before_newline p (String a l) Hp Hne), IH.
Qed.

Lemma count_page_markers_line (l rest : string) :
  has_char "010" l = false ->
  count_page_markers (l ++ String "010" rest)
  = (if Str.contains l "/Page " then 1 else 0) + count_page_markers rest.
Proof.
  intros Hl. unfold count_page_markers, Str.lines.
  rewrite (lines_from_line l rest "" Hl). cbn [filter append].
  rewrite (contains_before_newline "/Page " l eq_refl ltac:(discriminate)).
  now destruct (Str.contains l "/Page ").
Qed.

Lemma count_page_markers_last (l : string) :
  has_char "010" l = false ->
  count_page_markers l = if Str.contains l "/Page " then 1 else 0.
Proof.
  intros Hl. unfold count_page_markers, Str.lines.
  rewrite (lines_from_last l "" Hl). cbn [append].
  destruct l as [|a l]; [reflexivity|]. cbn [filter].
  now destruct (Str.contains (String a l) "/Page ").
Qed.

(** X10.  With [-v] the PDF extractor returns the library's text and
    reports as page count the number of lines of the raw file in which
    the marker "/Page " occurs: a line up to its newline counts one if
    the marker occurs in it, however often, and none otherwise, and so
    does what follows the last newline. *)
Theorem page_count_is_by_line (extract : string -> FS -> outcome string)
  (file_path text raw : string) (st : state FS) :
  pdfminer_extract_text = Some extract ->
  extract file_path (fs st) = Val text ->
  read_binary_file file_path (fs st) = Val raw ->
  extract_text_from_pdf file_path true st
  = (Val text,
     after_print st
       ("Processed " ++ Str.of_nat (count_page_markers raw)
        ++ " pages from PDF file: " ++ file_path))
  /\ (forall l rest,
         has_char "010" l = false ->
         count_page_markers (l ++ String "010" rest)
         = (if Str.contains l "/Page " then 1 else 0)
           + count_page_markers rest)
  /\ (forall l,
         has_char "010" l = false ->
         count_page_markers l = if Str.contains l "/Page " then 1 else 0).
Proof.
  intros Hlib Hread Hraw. split; [|split].
  - unfold extract_text_from_pdf, extract_pdf_text. rewrite Hlib.
    step_monad. now rewrite Hread, Hraw.
  - apply count_page_markers_line.
  - apply count_page_markers_last.
Qed.

End Texts.

(* ===================================================================== *)
(** * The generated output path *)
(* ===================================================================== *)

Lemma rfind_from_spec (s : string) (c : ascii) (i last : Z) :
  (last < i)%Z ->
  (Str.rfind_from s c i last = last /\ has_char c s = false)
  \/ ((i <= Str.rfind_from s c i last)%Z
      /\ has_char c
           (Str.drop (S (Z.to_nat (Str.rfind_from s c i last - i))) s) = false).
Proof.
  revert i last. induction s as [|a s IH]; intros i last Hl;
    cbn [Str.rfind_from has_char].
  - left. now split.
  - destruct (Ascii.eqb a c) eqn:Eac.
    + destruct (IH (i + 1)%Z i ltac:(lia)) as [[Hr Hno] | [Hr Hno]].
      * right. rewrite Hr. split; [lia|].
        replace (i - i)%Z with 0%Z by lia. exact Hno.
      * right. split; [lia|].
        replace (Z.to_nat (Str.rfind_from s c (i + 1) i - i))
          with (S (Z.to_nat (Str.rfind_from s c (i + 1) i - (i + 1)))) by lia.
        exact Hno.
    + destruct (IH (i + 1)%Z last ltac:(lia)) as [[Hr Hno] | [Hr Hno]].
      * left. split; [exact Hr|]. now rewrite Hno.
      * right. split; [lia|].
        replace (Z.to_nat (Str.rfind_from s c (i + 1) last - i))
          with (S (Z.to_nat (Str.rfind_from s c (i + 1) last - (i + 1)))) by lia.
        exact Hno.
Qed.

Lemma basename_has_no_sep (p : string) :
  has_char os_path.sep (os_path.basename p) = false.
Proof.
  unfold os_path.basename, Str.slice_from, Str.rfind.
  destruct (rfind_from_spec p os_path.sep 0 (-1) ltac:(lia)) as [[Hr Hno] | [Hr Hno]].
  - rewrite Hr. exact Hno.
  - replace (Z.to_nat (Str.rfind_from p os_path.sep 0 (-1) + 1))
      with (S (Z.to_nat (Str.rfind_from p os_path.sep 0 (-1) - 0))) by lia.
    exact Hno.
Qed.

Lemma has_char_take (c : ascii) (n : nat) (s : string) :
  has_char c s = false -> has_char c (Str.take n s) = false.
Proof.
  revert s. induction n as [|n IH]; intros [|a s] H; cbn in *; try reflexivity.
  apply orb_false_iff in H as [Ha Hs]. now rewrite Ha, IH.
Qed.

Lemma take_drop (n : nat) (s : string) : Str.take n s ++ Str.drop n s = s.
Proof.
  revert s. induction n as [|n IH]; intros [|a s]; cbn; try reflexivity.
  now rewrite IH.
Qed.

Lemma skip_leading_dots_cases (p rest : string) (n : nat) (d : Z) :
  os_path.skip_leading_dots p rest n d = (p, "")
  \/ os_path.skip_leading_dots p rest n d
     = (Str.take (Z.to_nat d) p, Str.drop (Z.to_nat d) p).
Proof.
  revert rest. induction n as [|n IH]; intros [|c r];
    cbn [os_path.skip_leading_dots].
  - now left.
  - now left.
  - right; reflexivity.
  - destruct (Ascii.eqb c os_path.extsep); [apply IH | right; reflexivity].
Qed.

Lemma splitext_cases (p : string) :
  os_path.splitext p = (p, "")
  \/ exists n, os_path.splitext p = (Str.take n p, Str.drop n p).
Proof.
  unfold os_path.splitext.
  destruct (Str.rfind p os_path.sep <? Str.rfind p os_path.extsep)%Z;
    [|now left].
  destruct (skip_leading_dots_cases p
              (Str.slice_from p (Str.rfind p os_path.sep + 1))
              (Z.to_nat (Str.rfind p os_path.extsep - (Str.rfind p os_path.sep + 1)))
              (Str.rfind p os_path.extsep)) as [E | E]; rewrite E.
  - now left.
  - right. eexists. reflexivity.
Qed.

Lemma splitext_rejoins (p : string) :
  fst (os_path.splitext p) ++ snd (os_path.splitext p) = p.
Proof.
  destruct (splitext_cases p) as [E | [n E]]; rewrite E; cbn [fst snd].
  - clear E. induction p as [|c p IH]; cbn; [reflexivity | now rewrite IH].
  - apply take_drop.
Qed.

Lemma stem_has_no_sep (file_path : string) :
  has_char os_path.sep
    (fst (os_path.splitext (os_path.basename file_path))) = false.
Proof.
  pose proof (basename_has_no_sep file_path) as Hb.
  destruct (splitext_cases (os_path.basename file_path)) as [E | [n E]];
    rewrite E; cbn [fst].
  - exact Hb.
  - now apply has_char_take.
Qed.

Lemma drop_last_of_cons (c : ascii) (s : string) :
  s <> "" ->
  Str.drop (String.length s) (String c s) = Str.drop (String.length s - 1) s.
Proof.
  destruct s as [|a s]; [congruence|]. intros _. cbn.
  now rewrite Nat.sub_0_r.
Qed.

Lemma txt_ends_with_t (x : string) :
  Str.drop (String.length (x ++ ".txt") - 1) (x ++ ".txt") = "t".
Proof.
  induction x as [|c x IH].
  - reflexivity.
  - cbn [append String.length]. rewrite Nat.sub_succ, Nat.sub_0_r.
    rewrite drop_last_of_cons; [exact IH|].
    destruct x; discriminate.
Qed.

Lemma txt_never_ends_with_sep (x : string) :
  Str.endswith (x ++ ".txt") os_path.os_sep = false.
Proof.
  unfold Str.endswith, os_path.os_sep. cbn [String.length].
  rewrite txt_ends_with_t. apply andb_false_r.
Qed.

Lemma clean_name_is_relative (stem : string) :
  has_char os_path.sep stem = false ->
  Str.startswith (stem ++ ".txt") os_path.os_sep = false.
Proof.
  unfold Str.startswith, os_path.os_sep. destruct stem as [|a stem]; intros H.
  - reflexivity.
  - cbn [append String.prefix]. cbn [has_char] in H.
    apply orb_false_iff in H as [Ha _].
    destruct (ascii_dec os_path.sep a) as [E | _]; [|reflexivity].
    subst a. discriminate.
Qed.

(** X11.  The name generated for an output file is the input's base
    name with its extension, as [os.path.splitext] cuts it, replaced by
    ".txt".  The name holds no path separator, so joining never lets go
    of the output directory: the path is the directory, a separator
    unless the directory is empty or ends with one, and the name; and
    the path never ends with a separator. *)
Theorem generated_path_stays_in_directory (out file_path : string) :
  let base_name := os_path.basename file_path in
  let stem := fst (os_path.splitext base_name) in
  let extension := snd (os_path.splitext base_name) in
  base_name = stem ++ extension
  /\ has_char "/" base_name = false
  /\ has_char "/" stem = false
  /\ os_path.join out (stem ++ ".txt")
     = (if negb (Str.truthy out) || Str.endswith out "/"
        then out ++ stem ++ ".txt"
        else out ++ "/" ++ stem ++ ".txt")
  /\ Str.endswith (os_path.join out (stem ++ ".txt")) "/" = false.
Proof.
  intros base_name stem extension.
  assert (Hstem : has_char os_path.sep stem = false)
    by apply stem_has_no_sep.
  assert (Hjoin : os_path.join out (stem ++ ".txt")
     = (if negb (Str.truthy out) || Str.endswith out "/"
        then out ++ stem ++ ".txt"
        else out ++ "/" ++ stem ++ ".txt")).
  { unfold os_path.join. now rewrite (clean_name_is_relative stem Hstem). }
  split; [symmetry; apply splitext_rejoins|].
  split; [apply basename_has_no_sep|].
  split; [exact Hstem|].
  split; [exact Hjoin|].
  rewrite Hjoin.
  destruct (negb (Str.truthy out) || Str.endswith out "/").
  - rewrite <- append_assoc. apply txt_never_ends_with_sep.
  - change (out ++ "/" ++ stem ++ ".txt") with (out ++ ("/" ++ stem) ++ ".txt").
    rewrite <- append_assoc. apply txt_never_ends_with_sep.
Qed.

(* ===================================================================== *)
(** * Where the text goes *)
(* ===================================================================== *)

Section Outputs.

Context {P : Platform}.

Lemma pdf_read (extract : string -> FS -> outcome string)
  (file_path text : string) (st : state FS) :
  pdfminer_extract_text = Some extract ->
  extract file_path (fs st) = Val text ->
  extract_text_from_pdf file_path false st = (Val text, st).
Proof.
  intros Hlib Hread. unfold extract_text_from_pdf, extract_pdf_text.
  rewrite Hlib. step_monad. now rewrite Hread.
Qed.

Lemma quiet_extraction (file_path file_format text : string) (st : state FS) :
  in_formats file_format = true ->
  library_yields (fs st) file_path file_format text ->
  (if String.eqb file_format "pdf" then extract_text_from_pdf file_path false
   else if String.eqb file_format "docx" then extract_text_from_docx file_path false
   else extract_text_from_pptx file_path false) st
  = (Val text, st).
Proof.
  intros _ [[-> (e & He & Hr)] | [[-> (o & doc & Ho & Hr & ->)]
                                 | [-> (o & deck & Ho & Hr & ->)]]];
    cbn [String.eqb Ascii.eqb Bool.eqb].
  - now apply pdf_read with (extract := e).
  - destruct (docx_opened o file_path false doc st Ho Hr) as (Hv & _ & Hst).
    specialize (Hst eq_refl).
    destruct (extract_text_from_docx file_path false st) as [r s'].
    cbn in *. congruence.
  - destruct (pptx_opened o file_path false deck st Ho Hr) as (Hv & _ & Hst).
    specialize (Hst eq_refl).
    destruct (extract_text_from_pptx file_path false st) as [r s'].
    cbn in *. congruence.
Qed.

Lemma extract_text_quiet (file_path : string) (fmt : option string)
  (file_format text : string) (st : state FS) :
  os_path_exists (fs st) file_path = true ->
  selects file_path fmt file_format ->
  library_yields (fs st) file_path file_format text ->
  extract_text file_path fmt false st = (Val (Some text), st).
Proof.
  intros Hex Hsel Hlib.
  pose proof (quiet_extraction file_path file_format text st (proj1 Hsel) Hlib)
    as Hq.
  unfold extract_text. unfold bind at 1. unfold ask. cbn [fs].
  rewrite Hex. cbn [negb]. unfold bind at 1.
  rewrite (selects_resolves _ _ _ st Hsel).
  destruct (in_formats_cases _ (proj1 Hsel)) as [-> | [-> | ->]];
    cbn in Hq |- *; unfold bind; now rewrite Hq.
Qed.

(** X12.  Without [-o] and without [-v], an input that exists, selects a
    format and is read by that format's library puts exactly its text on
    the console, as one [print] and with nothing added, and nothing at
    all when the text is empty; the file system is not touched. *)
Theorem console_prints_text_verbatim (args : Namespace) (dir : bool)
  (file_path file_format text : string) (st : state FS) :
  verbose args = false ->
  Str.truthy_opt (output args) = false ->
  os_path_exists (fs st) file_path = true ->
  selects file_path (format args) file_format ->
  library_yields (fs st) file_path file_format text ->
  process_file args dir file_path st
  = (Val tt, if Str.truthy text then after_print st text else st).
Proof.
  intros Hv Hout Hex Hsel Hlib.
  rewrite process_file_start, Hv. unfold bind at 1.
  rewrite (extract_text_quiet file_path (format args) file_format text st
             Hex Hsel Hlib).
  unfold bind. rewrite (output_path_for_console args dir file_path st Hout).
  apply handle_output_console.
Qed.

Lemma handle_output_to_file (text out input_path : string) (st : state FS) :
  text <> "" -> out <> "" ->
  handle_output text (Some out) input_path st
  = (output_file <- choose_output_file out input_path ;;
     write_output_file output_file text) st.
Proof.
  intros Ht Ho. unfold handle_output.
  now rewrite (truthy_nonempty text Ht), (truthy_nonempty out Ho).
Qed.

(** X13.  A write that fails with an [Exception] does not stop anything:
    the router prints "Error writing to output file" with the message
    and returns; the console holds nothing else new, in particular no
    confirmation. *)
Theorem write_failure_is_reported (text out input_path output_file msg : string)
  (st st1 : state FS) (w' : FS) :
  text <> "" ->
  out <> "" ->
  choose_output_file out input_path st = (Val output_file, st1) ->
  write_text_file output_file text (fs st1) = (Raise (Exception msg), w') ->
  handle_output text (Some out) input_path st
  = (Val tt,
     after_print (mkState w' (stdout st))
       ("Error writing to output file: " ++ msg)).
Proof.
  intros Ht Ho Hchoose Hwrite.
  rewrite (handle_output_to_file text out input_path st Ht Ho).
  pose proof (choose_output_file_stdout out input_path st) as Hsame.
  unfold bind. rewrite Hchoose in *. cbn [snd] in Hsame.
  unfold write_output_file. step_monad. rewrite Hwrite.
  unfold after_print. cbn [fs stdout]. now rewrite Hsame.
Qed.

(** X14.  Directory creation is outside every [try]: when the output is
    directory-shaped and [os.makedirs] of the output directory raises
    for an input whose extraction returned a text, be it the empty text
    of a failed extraction, the loop body raises the same exception,
    nothing is written, and the inputs after it are not processed. *)
Theorem directory_creation_failure_aborts (args : Namespace)
  (out file_path text : string) (rest : list string) (e : exn)
  (st st1 : state FS) (w' : FS) :
  output args = Some out ->
  out <> "" ->
  extract_text file_path (format args) (verbose args)
    (if verbose args
     then after_print st ("Processing file: " ++ file_path) else st)
  = (Val (Some text), st1) ->
  os_makedirs out (fs st1) = (Raise e, w') ->
  process_file args true file_path st = (Raise e, mkState w' (stdout st1))
  /\ for_each (file_path :: rest) (process_file args true) st
     = (Raise e, mkState w' (stdout st1))
  /\ exit_status (fst (for_each (file_path :: rest) (process_file args true) st))
     = match e with Exception _ => 1%Z | SystemExit code => code end.
Proof.
  intros Hout Hne Hext Hmk.
  assert (E : process_file args true file_path st
              = (Raise e, mkState w' (stdout st1))).
  { rewrite process_file_start. unfold bind at 1. rewrite Hext.
    unfold bind at 1.
    rewrite (output_path_for_directory args out file_path st1 Hout Hne).
    unfold bind, effect. now rewrite Hmk. }
  assert (E' : for_each (file_path :: rest) (process_file args true) st
               = (Raise e, mkState w' (stdout st1))).
  { cbn [for_each]. unfold bind at 1. now rewrite E. }
  split; [exact E | split; [exact E'|]].
  rewrite E'. now destruct e.
Qed.

(** X15.  Given an output path that is not a directory and is not a
    missing path ending with the separator, the router writes the text
    to exactly that path, whatever the input path is, and confirms it;
    it first creates the parent directory when the path names one that
    does not exist. *)
Theorem router_writes_named_file (text out input_path : string)
  (st : state FS) :
  text <> "" ->
  out <> "" ->
  os_path_isdir (fs st) out = false ->
  os_path_exists (fs st) out = true \/ Str.endswith out os_path.os_sep = false ->
  (forall w',
      os_path.dirname out = ""
      \/ os_path_exists (fs st) (os_path.dirname out) = true ->
      write_text_file out text (fs st) = (Val tt, w') ->
      handle_output text (Some out) input_path st
      = (Val tt,
         after_print (mkState w' (stdout st)) ("Text extracted to: " ++ out)))
  /\ (forall w1 w2,
         os_path.dirname out <> "" ->
         os_path_exists (fs st) (os_path.dirname out) = false ->
         os_makedirs (os_path.dirname out) (fs st) = (Val tt, w1) ->
         write_text_file out text w1 = (Val tt, w2) ->
         handle_output text (Some out) input_path st
         = (Val tt,
            after_print (mkState w2 (stdout st)) ("Text extracted to: " ++ out))).
Proof.
  intros Ht Ho Hdir Hshape.
  assert (Hbranch : os_path_isdir (fs st) out
                    || negb (os_path_exists (fs st) out)
                       && Str.endswith out os_path.os_sep = false).
  { rewrite Hdir. cbn [orb]. destruct Hshape as [-> | ->];
      [reflexivity | apply andb_false_r]. }
  split.
  - intros w' Hparent Hwrite.
    rewrite (handle_output_to_file text out input_path st Ht Ho).
    unfold choose_output_file, write_output_file. step_monad.
    rewrite Hbranch.
    assert (Hskip : Str.truthy (os_path.dirname out)
                    && negb (os_path_exists (fs st) (os_path.dirname out))
                    = false).
    { destruct Hparent as [-> | ->]; [reflexivity | apply andb_false_r]. }
    rewrite Hskip. cbn [fs stdout]. now rewrite Hwrite.
  - intros w1 w2 Hparent Hmissing Hmk Hwrite.
    rewrite (handle_output_to_file text out input_path st Ht Ho).
    unfold choose_output_file, write_output_file. step_monad.
    rewrite Hbranch, (truthy_nonempty _ Hparent), Hmissing. cbn [negb andb].
    rewrite Hmk. cbn [fs stdout]. now rewrite Hwrite.
Qed.

(** X16.  Given an output path that is a directory, or that does not
    exist and ends with the separator, the router makes sure the
    directory is there and writes the text to the file in it that is
    named after the input: base name, extension cut off, ".txt"
    added. *)
Theorem router_fills_directory (text out input_path : string)
  (st : state FS) (w1 w2 : FS) :
  text <> "" ->
  out <> "" ->
  os_path_isdir (fs st) out = true
  \/ (os_path_exists (fs st) out = false
      /\ Str.endswith out os_path.os_sep = true) ->
  os_makedirs out (fs st) = (Val tt, w1) ->
  let output_file :=
    os_path.join out
      (fst (os_path.splitext (os_path.basename input_path)) ++ ".txt") in
  write_text_file output_file text w1 = (Val tt, w2) ->
  handle_output text (Some out) input_path st
  = (Val tt,
     after_print (mkState w2 (stdout st)) ("Text extracted to: " ++ output_file)).
Proof.
  intros Ht Ho Hshape Hmk output_file Hwrite.
  rewrite (handle_output_to_file text out input_path st Ht Ho).
  unfold choose_output_file, write_output_file. step_monad.
  assert (Hbranch : os_path_isdir (fs st) out
                    || negb (os_path_exists (fs st) out)
                       && Str.endswith out os_path.os_sep = true).
  { destruct Hshape as [-> | [-> ->]]; [reflexivity | apply orb_true_r]. }
  rewrite Hbranch, Hmk. cbn [fs stdout]. fold output_file. now rewrite Hwrite.
Qed.

End Outputs.

(* ===================================================================== *)
(** * One file per input in a directory *)
(* ===================================================================== *)

Section DirectoryMode.

Context {P : Platform}.

Lemma generated_path_has_no_trailing_sep (out file_path : string) :
  Str.endswith
    (os_path.join out
       (fst (os_path.splitext (os_path.basename file_path)) ++ ".txt"))
    os_path.os_sep = false.
Proof.
  unfold os_path.join.
  rewrite (clean_name_is_relative _ (stem_has_no_sep file_path)).
  destruct (negb (Str.truthy out) || Str.endswith out os_path.os_sep).
  - rewrite <- append_assoc. apply txt_never_ends_with_sep.
  - rewrite <- !append_assoc. apply txt_never_ends_with_sep.
Qed.

Lemma named_file_written (text out input_path : string) (st : state FS) (w' : FS) :
  text <> "" ->
  out <> "" ->
  os_path_isdir (fs st) out = false ->
  Str.endswith out os_path.os_sep = false ->
  os_path.dirname out = ""
  \/ os_path_exists (fs st) (os_path.dirname out) = true ->
  write_text_file out text (fs st) = (Val tt, w') ->
  handle_output text (Some out) input_path st
  = (Val tt, after_print (mkState w' (stdout st)) ("Text extracted to: " ++ out)).
Proof.
  intros Ht Ho Hdir Hend Hparent Hwrite.
  rewrite (handle_output_to_file text out input_path st Ht Ho).
  unfold choose_output_file, write_output_file. step_monad.
  rewrite Hdir, Hend, andb_false_r. cbn [orb].
  assert (Hskip : Str.truthy (os_path.dirname out)
                  && negb (os_path_exists (fs st) (os_path.dirname out))
                  = false).
  { destruct Hparent as [-> | ->]; [reflexivity | apply andb_false_r]. }
  rewrite Hskip. cbn [fs stdout]. now rewrite Hwrite.
Qed.

(** X17.  With a directory-shaped output, an input whose extraction
    returns a non-empty text ends up in the file named after it inside
    the output directory: once the directory is made, and unless that
    very path is a directory itself, the text is written to the
    directory joined with the input's stem plus ".txt", and that path
    is confirmed on the console.  The router's own test for a trailing
    separator can never fire on such a path. *)
Theorem directory_mode_writes_stem_txt (args : Namespace)
  (out file_path text : string) (st st1 : state FS) (w1 w2 : FS) :
  output args = Some out ->
  out <> "" ->
  text <> "" ->
  extract_text file_path (format args) (verbose args)
    (if verbose args
     then after_print st ("Processing file: " ++ file_path) else st)
  = (Val (Some text), st1) ->
  os_makedirs out (fs st1) = (Val tt, w1) ->
  let target :=
    os_path.join out
      (fst (os_path.splitext (os_path.basename file_path)) ++ ".txt") in
  os_path_isdir w1 target = false ->
  os_path.dirname target = ""
  \/ os_path_exists w1 (os_path.dirname target) = true ->
  write_text_file target text w1 = (Val tt, w2) ->
  process_file args true file_path st
  = (Val tt,
     after_print (mkState w2 (stdout st1)) ("Text extracted to: " ++ target))
  /\ Str.endswith target os_path.os_sep = false.
Proof.
  intros Hout Hne Ht Hext Hmk target Hdir Hparent Hwrite.
  split; [|apply generated_path_has_no_trailing_sep].
  rewrite process_file_start. unfold bind at 1. rewrite Hext.
  unfold bind at 1.
  rewrite (output_path_for_directory args out file_path st1 Hout Hne).
  unfold bind at 1. unfold effect. rewrite Hmk. unfold ret. fold target.
  apply (named_file_written text target file_path
           (mkState w1 (stdout st1)) w2 Ht); try assumption.
  - apply join_nonempty. apply append_nonempty. discriminate.
  - apply generated_path_has_no_trailing_sep.
Qed.

End DirectoryMode.

(* ===================================================================== *)
(** * Runs of the further properties on the concrete platform *)
(* ===================================================================== *)

Lemma demo_libraries_behave : libraries_behave (P := Demo.platform).
Proof.
  unfold libraries_behave, no_exit. repeat split.
  - exists Demo.read_pdf. split; [reflexivity|].
    intros p w code. unfold Demo.read_pdf, Demo.not_found.
    destruct (Demo.lookup w p) as [[| | | |]|]; discriminate.
  - exists Demo.read_docx. split; [reflexivity|].
    intros p w code. unfold Demo.read_docx, Demo.not_found.
    destruct (Demo.lookup w p) as [[| | | |]|]; discriminate.
  - exists Demo.read_pptx. split; [reflexivity|].
    intros p w code. unfold Demo.read_pptx, Demo.not_found.
    destruct (Demo.lookup w p) as [[| | | |]|]; discriminate.
  - intros p w code. cbn. unfold Demo.read_binary, Demo.not_found.
    destruct (Demo.lookup w p) as [[| | | |]|]; discriminate.
Qed.

Lemma demo_writes_never_exit : writes_never_exit (P := Demo.platform).
Proof.
  intros p t w code. cbn. unfold Demo.write.
  destruct (Demo.lookup w p) as [[| | | |]|]; discriminate.
Qed.

(** "report.pdf" exists and selects pdf by its extension. *)
Lemma extract_text_dispatches_witness :
  Demo.exists_ Demo.disk "report.pdf" = true
  /\ extract_text (P := Demo.platform) "report.pdf" None false Demo.boot
     = (Val (Some "quarterly"), Demo.boot).
Proof.
  split; [reflexivity|].
  destruct (extract_text_dispatches (P := Demo.platform)
              "report.pdf" None false Demo.boot eq_refl)
    as [[H _] | [[_ E] | [[[_ H] _] | [[_ H] _]]]].
  - exfalso. apply (H "pdf"). split; reflexivity.
  - rewrite E. reflexivity.
  - discriminate H.
  - discriminate H.
Defined.

(** "nope.pdf" is not on the disk; "b/doc.docx" comes after it. *)
Lemma missing_file_is_skipped_witness :
  let args := mkNamespace ["nope.pdf"; "b/doc.docx"] None None false in
  Demo.exists_ Demo.disk "nope.pdf" = false
  /\ for_each (file_paths args) (process_file (P := Demo.platform) args false)
       Demo.boot
     = (Val tt, mkState Demo.disk ["Error: File not found: nope.pdf"; "second"]).
Proof.
  cbv zeta. split; [reflexivity|].
  refine (eq_trans
            (proj2 (missing_file_is_skipped (P := Demo.platform)
                      (mkNamespace ["nope.pdf"; "b/doc.docx"] None None false)
                      false "nope.pdf" ["b/doc.docx"] Demo.boot eq_refl)) _).
  reflexivity.
Defined.

Lemma txt_selects_nothing (f : string) : ~ selects "report.txt" None f.
Proof.
  intros [Hin H]. cbn in H. injection H as <-. discriminate.
Qed.

(** "report.txt" exists but its extension selects nothing. *)
Lemma unresolved_format_is_skipped_witness :
  let args := mkNamespace ["report.txt"; "b/doc.docx"] None None false in
  Demo.exists_ Demo.disk "report.txt" = true
  /\ for_each (file_paths args) (process_file (P := Demo.platform) args false)
       Demo.boot
     = (Val tt,
        mkState Demo.disk
          ["Error: Unsupported file format for report.txt"; "second"]).
Proof.
  cbv zeta. split; [reflexivity|].
  refine (eq_trans
            (proj2 (unresolved_format_is_skipped (P := Demo.platform)
                      (mkNamespace ["report.txt"; "b/doc.docx"] None None false)
                      false "report.txt" ["b/doc.docx"] Demo.boot eq_refl
                      txt_selects_nothing)) _).
  reflexivity.
Defined.

(** A run over good, broken and missing inputs, without [-o]. *)
Lemma console_mode_reads_only_witness :
  let args :=
    mkNamespace ["deck.pptx"; "bad.docx"; "nope.pdf"; "report.pdf"]
      None None true in
  Str.truthy_opt (output args) = false
  /\ fs (snd (run (P := Demo.platform) args Demo.boot)) = Demo.disk.
Proof.
  cbv zeta. split; [reflexivity|].
  apply (console_mode_reads_only (P := Demo.platform)
           (mkNamespace ["deck.pptx"; "bad.docx"; "nope.pdf"; "report.pdf"]
              None None true)
           Demo.boot eq_refl).
Defined.

Lemma demo_makedirs_never_exits : makedirs_never_exits (P := Demo.platform).
Proof.
  intros p w code. cbn. unfold Demo.makedirs.
  destruct (Demo.lookup w p) as [[| | | |]|]; discriminate.
Qed.

(** A run with [-o out] over an input whose write fails, a broken one
    and a missing one: it returns, with status 0, and the failed write
    is on the console. *)
Lemma batch_completes_witness :
  let disk :=
    [ ("a/doc.pdf", Demo.Pdf "first");
      ("bad.docx", Demo.Text "not a document");
      ("out", Demo.Dir);
      ("out/doc.txt", Demo.Dir);
      ("out/doc.txt/doc.txt", Demo.Dir) ] in
  let given :=
    mkNamespace ["a/doc.pdf"; "bad.docx"; "nope.pdf"] None (Some "out") false in
  let r := run (P := Demo.platform) given (mkState disk []) in
  Str.truthy_opt (output given) = true
  /\ fst r = Val tt
  /\ exit_status (fst r) = 0%Z
  /\ stdout (snd r)
     = [ "Error writing to output file: [Errno 21] Is a directory: out/doc.txt/doc.txt";
         "Error extracting text from DOCX: File is not a zip file";
         "Error: File not found: nope.pdf" ].
Proof.
  cbv zeta. split; [reflexivity|].
  destruct (proj1 (proj2
              (batch_completes (P := Demo.platform)
                 (mkNamespace ["a/doc.pdf"; "bad.docx"; "nope.pdf"] None
                    (Some "out") false)
                 (mkState
                    [ ("a/doc.pdf", Demo.Pdf "first");
                      ("bad.docx", Demo.Text "not a document");
                      ("out", Demo.Dir);
                      ("out/doc.txt", Demo.Dir);
                      ("out/doc.txt/doc.txt", Demo.Dir) ] [])))
              demo_libraries_behave demo_writes_never_exit
              demo_makedirs_never_exits)
    as [[H1 H2] | (msg & path & w & E & _)].
  - split; [exact H1 | split; [exact H2 | reflexivity]].
  - discriminate E.
Defined.

(** The deck of three slides, one of them without text. *)
Lemma pptx_verbose_counts_witness :
  Demo.read_pptx "deck.pptx" Demo.disk = Val example_deck
  /\ snd (extract_text_from_pptx (P := Demo.platform) "deck.pptx" true Demo.boot)
     = after_print Demo.boot
         "Processed 3 slides and 3 text elements from PPTX file: deck.pptx"
  /\ List.length (deck_lines 1 (slides example_deck)) = 3 + 2.
Proof.
  split; [reflexivity|].
  destruct (pptx_verbose_counts (P := Demo.platform) Demo.read_pptx
              "deck.pptx" example_deck Demo.boot eq_refl eq_refl)
    as (H1 & _ & H3).
  split; [now rewrite H1 | exact H3].
Defined.

(** A document of three paragraphs, the middle one empty. *)
Lemma docx_paragraphs_recoverable_witness :
  let doc := mkDocument [mkParagraph "Title"; mkParagraph ""; mkParagraph "Body"] in
  let st := mkState [("notes.docx", Demo.Docx doc)] [] in
  exists text,
    fst (extract_text_from_docx (P := Demo.platform) "notes.docx" false st)
    = Val text
    /\ text = "Title

Body"
    /\ split_on "010" text = ["Title"; ""; "Body"].
Proof.
  cbv zeta.
  destruct (proj1 (docx_paragraphs_recoverable (P := Demo.platform)
              Demo.read_docx "notes.docx" false
              (mkDocument [mkParagraph "Title"; mkParagraph ""; mkParagraph "Body"])
              (mkState
                 [("notes.docx",
                   Demo.Docx
                     (mkDocument
                        [mkParagraph "Title"; mkParagraph ""; mkParagraph "Body"]))]
                 [])
              eq_refl eq_refl ltac:(discriminate)
              ltac:(repeat constructor)))
    as (text & Hv & Hsplit).
  exists text. split; [exact Hv | split; [|exact Hsplit]].
  cbn in Hv. now injection Hv as <-.
Defined.

(** "report.pdf": its raw bytes are one line that holds the marker. *)
Lemma page_count_is_by_line_witness :
  Demo.read_binary "report.pdf" Demo.disk
  = Val "%PDF-1.4 <</Type /Page >> quarterly"
  /\ extract_text_from_pdf (P := Demo.platform) "report.pdf" true Demo.boot
     = (Val "quarterly",
        after_print Demo.boot "Processed 1 pages from PDF file: report.pdf").
Proof.
  split; [reflexivity|].
  apply (proj1 (page_count_is_by_line (P := Demo.platform) Demo.read_pdf
                  "report.pdf" "quarterly"
                  "%PDF-1.4 <</Type /Page >> quarterly" Demo.boot
                  eq_refl eq_refl eq_refl)).
Defined.

(** The deck goes to the console as it is. *)
Lemma console_prints_text_verbatim_witness :
  let args := mkNamespace ["deck.pptx"] None None false in
  selects "deck.pptx" None "pptx"
  /\ process_file (P := Demo.platform) args false "deck.pptx" Demo.boot
     = (Val tt,
        after_print Demo.boot "--- Slide 1 ---
Hello
--- Slide 3 ---
A
B").
Proof.
  cbv zeta. split; [split; reflexivity|].
  apply (console_prints_text_verbatim (P := Demo.platform)
           (mkNamespace ["deck.pptx"] None None false) false
           "deck.pptx" "pptx"
           (Str.join (String "010" "") (deck_lines 1 (slides example_deck)))
           Demo.boot eq_refl eq_refl eq_refl (conj eq_refl eq_refl)).
  right; right. split; [reflexivity|].
  exists Demo.read_pptx, example_deck. repeat split.
Defined.

(** The file the router picks inside "out" is a directory itself: the
    write fails and is reported. *)
Lemma write_failure_is_reported_witness :
  let st := mkState [("out", Demo.Dir); ("out/doc.txt", Demo.Dir)] [] in
  choose_output_file (P := Demo.platform) "out" "a/doc.pdf" st
  = (Val "out/doc.txt", st)
  /\ handle_output (P := Demo.platform) "first" (Some "out") "a/doc.pdf" st
     = (Val tt,
        after_print st
          "Error writing to output file: [Errno 21] Is a directory: out/doc.txt").
Proof.
  cbv zeta. split; [reflexivity|].
  apply (write_failure_is_reported (P := Demo.platform)
           "first" "out" "a/doc.pdf" "out/doc.txt"
           "[Errno 21] Is a directory: out/doc.txt"
           (mkState [("out", Demo.Dir); ("out/doc.txt", Demo.Dir)] [])
           (mkState [("out", Demo.Dir); ("out/doc.txt", Demo.Dir)] [])
           [("out", Demo.Dir); ("out/doc.txt", Demo.Dir)]
           ltac:(discriminate) ltac:(discriminate) eq_refl eq_refl).
Defined.

(** Two inputs and the output "report.pdf", which is a file: the
    directory cannot be made and the run ends at the first input. *)
Lemma directory_creation_failure_aborts_witness :
  let args := mkNamespace ["a/doc.pdf"; "b/doc.docx"] None (Some "report.pdf") false in
  Demo.makedirs "report.pdf" Demo.disk
  = (Raise (Exception "[Errno 17] File exists: report.pdf"), Demo.disk)
  /\ run (P := Demo.platform) args Demo.boot
     = (Raise (Exception "[Errno 17] File exists: report.pdf"), Demo.boot)
  /\ exit_status (fst (run (P := Demo.platform) args Demo.boot)) = 1%Z.
Proof.
  cbv zeta. split; [reflexivity|].
  destruct (directory_creation_failure_aborts (P := Demo.platform)
              (mkNamespace ["a/doc.pdf"; "b/doc.docx"] None (Some "report.pdf") false)
              "report.pdf" "a/doc.pdf" "first" ["b/doc.docx"]
              (Exception "[Errno 17] File exists: report.pdf")
              Demo.boot Demo.boot Demo.disk
              eq_refl ltac:(discriminate) eq_refl eq_refl)
    as (_ & H2 & H3).
  split; [exact H2 | exact H3].
Defined.

(** The output "x/y.txt", whose parent "x" does not exist yet. *)
Lemma router_writes_named_file_witness :
  let w1 := snd (Demo.makedirs "x" Demo.disk) in
  let w2 := snd (Demo.write "x/y.txt" "first" w1) in
  Demo.exists_ Demo.disk "x" = false
  /\ handle_output (P := Demo.platform) "first" (Some "x/y.txt") "a/doc.pdf" Demo.boot
     = (Val tt, after_print (mkState w2 []) "Text extracted to: x/y.txt")
  /\ Demo.content w2 "x/y.txt" = Some "first".
Proof.
  cbv zeta. split; [reflexivity | split; [|reflexivity]].
  apply (proj2 (router_writes_named_file (P := Demo.platform)
                  "first" "x/y.txt" "a/doc.pdf" Demo.boot
                  ltac:(discriminate) ltac:(discriminate) eq_refl
                  (or_intror eq_refl))
           (snd (Demo.makedirs "x" Demo.disk))
           (snd (Demo.write "x/y.txt" "first" (snd (Demo.makedirs "x" Demo.disk))))
           ltac:(discriminate) eq_refl eq_refl eq_refl).
Defined.

(** The output "out", which is a directory. *)
Lemma router_fills_directory_witness :
  let w2 := snd (Demo.write "out/doc.txt" "first" Demo.disk) in
  Demo.isdir Demo.disk "out" = true
  /\ handle_output (P := Demo.platform) "first" (Some "out") "a/doc.pdf" Demo.boot
     = (Val tt, after_print (mkState w2 []) "Text extracted to: out/doc.txt").
Proof.
  cbv zeta. split; [reflexivity|].
  apply (router_fills_directory (P := Demo.platform)
           "first" "out" "a/doc.pdf" Demo.boot Demo.disk
           (snd (Demo.write "out/doc.txt" "first" Demo.disk))
           ltac:(discriminate) ltac:(discriminate) (or_introl eq_refl)
           eq_refl eq_refl).
Defined.

(** "a/doc.pdf" with the output directory "out". *)
Lemma directory_mode_writes_stem_txt_witness :
  let args := mkNamespace ["a/doc.pdf"; "b/doc.docx"] None (Some "out") false in
  let w2 := snd (Demo.write "out/doc.txt" "first" Demo.disk) in
  process_file (P := Demo.platform) args true "a/doc.pdf" Demo.boot
  = (Val tt, after_print (mkState w2 []) "Text extracted to: out/doc.txt")
  /\ Demo.content w2 "out/doc.txt" = Some "first".
Proof.
  cbv zeta. split; [|reflexivity].
  apply (proj1 (directory_mode_writes_stem_txt (P := Demo.platform)
                  (mkNamespace ["a/doc.pdf"; "b/doc.docx"] None (Some "out") false)
                  "out" "a/doc.pdf" "first" Demo.boot Demo.boot Demo.disk
                  (snd (Demo.write "out/doc.txt" "first" Demo.disk))
                  eq_refl ltac:(discriminate) ltac:(discriminate)
                  eq_refl eq_refl eq_refl (or_intror eq_refl) eq_refl)).
Defined.

(* ===================================================================== *)
(** * What the result of an extraction tells *)
(* ===================================================================== *)

Section Results.

Context {P : Platform}.

Lemma wrapped_is_not_none {A} (m : M FS A) (st : state FS) :
  fst ((a <- m ;; ret (Some a)) st) <> Val None.
Proof.
  unfold bind, ret. destruct (m st) as [[a|e] st1]; discriminate.
Qed.

(** X18.  [extract_text] returns [None] exactly for the inputs it skips:
    the file does not exist, or it exists and no format is selected.
    For every other input the result is a text in [Some], the empty one
    after a failed extraction, or the run ends. *)
Theorem none_means_skipped (file_path : string) (fmt : option string)
  (v : bool) (st : state FS) :
  fst (extract_text file_path fmt v st) = Val None
  <-> (os_path_exists (fs st) file_path = false
       \/ forall f, ~ selects file_path fmt f).
Proof.
  destruct (os_path_exists (fs st) file_path) eqn:Hex.
  - destruct (extract_text_cases file_path fmt v st Hex)
      as [[Hno E] | [[Hsel E] | [[Hsel E] | [Hsel E]]]]; rewrite E.
    + split; [intros _; now right | reflexivity].
    + split; [intros H; now apply wrapped_is_not_none in H|].
      intros [H | H]; [discriminate | now apply H in Hsel].
    + split; [intros H; now apply wrapped_is_not_none in H|].
      intros [H | H]; [discriminate | now apply H in Hsel].
    + split; [intros H; now apply wrapped_is_not_none in H|].
      intros [H | H]; [discriminate | now apply H in Hsel].
  - split; [intros _; now left|]. intros _.
    unfold extract_text. unfold bind at 1. unfold ask. rewrite Hex.
    reflexivity.
Qed.

(** X19.  [-v] never changes what the DOCX and the PPTX extractor
    return, whatever the library does; the PDF extractor is different:
    its page count reads the file again, and when that read raises, the
    text the library had extracted is dropped for the empty one. *)
Theorem verbose_changes_only_pdf_result (file_path : string) (st : state FS) :
  fst (extract_text_from_docx file_path true st)
  = fst (extract_text_from_docx file_path false st)
  /\ fst (extract_text_from_pptx file_path true st)
     = fst (extract_text_from_pptx file_path false st)
  /\ (forall extract text msg,
         pdfminer_extract_text = Some extract ->
         extract file_path (fs st) = Val text ->
         read_binary_file file_path (fs st) = Raise (Exception msg) ->
         fst (extract_text_from_pdf file_path false st) = Val text
         /\ fst (extract_text_from_pdf file_path true st) = Val "").
Proof.
  split; [|split].
  - unfold extract_text_from_docx, open_docx.
    destruct docx_Document as [o|]; step_monad; [|reflexivity].
    destruct (o file_path (fs st)) as [doc|[msg|c]]; reflexivity.
  - unfold extract_text_from_pptx, open_pptx.
    destruct pptx_Presentation as [o|]; step_monad; [|reflexivity].
    destruct (o file_path (fs st)) as [deck|[msg|c]]; try reflexivity.
    destruct (collect_slides (slides deck) 1 [] 0). reflexivity.
  - intros extract text msg Hlib Hread Hraw. split.
    + now rewrite (pdf_read extract file_path text st Hlib Hread).
    + now rewrite (pdf_page_scan_raises extract file_path text msg st
                     Hlib Hread Hraw).
Qed.

End Results.

(** A platform on which the PDF library reads "report.pdf" but the raw
    read of the page count is denied. *)
Lemma verbose_changes_only_pdf_result_witness :
  let flaky : Platform := {|
    FS := Demo.fsys;
    os_path_exists := Demo.exists_;
    os_path_isdir := Demo.isdir;
    os_makedirs := Demo.makedirs;
    write_text_file := Demo.write;
    read_binary_file := fun path _ =>
      Raise (Exception ("[Errno 13] Permission denied: " ++ path));
    pdfminer_extract_text := Some Demo.read_pdf;
    docx_Document := Some Demo.read_docx;
    pptx_Presentation := Some Demo.read_pptx
  |} in
  fst (extract_text_from_pdf (P := flaky) "report.pdf" false Demo.boot)
  = Val "quarterly"
  /\ fst (extract_text_from_pdf (P := flaky) "report.pdf" true Demo.boot)
     = Val "".
Proof.
  cbv zeta.
  apply (proj2 (proj2 (verbose_changes_only_pdf_result
           (P := {|
              FS := Demo.fsys;
              os_path_exists := Demo.exists_;
              os_path_isdir := Demo.isdir;
              os_makedirs := Demo.makedirs;
              write_text_file := Demo.write;
              read_binary_file := fun path _ =>
                Raise (Exception ("[Errno 13] Permission denied: " ++ path));
              pdfminer_extract_text := Some Demo.read_pdf;
              docx_Document := Some Demo.read_docx;
              pptx_Presentation := Some Demo.read_pptx
            |})
           "report.pdf" Demo.boot))
         Demo.read_pdf "quarterly" "[Errno 13] Permission denied: report.pdf"
         eq_refl eq_refl eq_refl).
Defined.
